(** * fastapi-with-otel: request telemetry middleware and demo endpoints

    A shallow embedding of [src/app/middleware.py], [src/app/main.py],
    [src/app/otel_setup.py] (the instrument registry) and of the middleware
    and endpoints of [src/main.py].

    Conventions of the embedding:
    - Python [int] is [Z]; Python [float] is an abstract type [F] with the
      operations the code uses on it (class [PyFloat]); exact rationals give
      one executable instance.
    - A handler or middleware is a computation in the monad [Eff]: it
      threads the module-level counters, appends telemetry events to a trace
      in program order and may raise.  State changes and emitted events made
      before a [raise] are kept, as in Python.
    - [time.time()] and the draws of [random] are inputs of the functions
      that read them.  [time.sleep] only delays and is left out. *)

From Stdlib Require Import ZArith List String Bool Lia QArith DecimalString.
From Stdlib Require Import Permutation.
Import ListNotations.
Open Scope string_scope.
Open Scope list_scope.
Open Scope Z_scope.

Set Implicit Arguments.
Set Warnings "-register-all".

(** ** Python numbers *)

(** The operations the sources apply to floats.  [truediv a b] is the
    Python expression [a / b] on two ints with [b <> 0];
    [fmul_int x k] is [x * k] for a float [x] and an int [k];
    [is_finite x] is false of the infinities and of NaN, which JSON cannot
    carry. *)
Class PyFloat (F : Type) : Type := {
  truediv : Z -> Z -> F;
  fmul_int : F -> Z -> F;
  fsub : F -> F -> F;
  fgt_int : F -> Z -> bool;
  int_of_float : F -> Z;
  float_of_int : Z -> F;
  fle : F -> F -> Prop;
  is_finite : F -> bool
}.

(** Order facts about the two operations of the error-rate expression.
    Both hold of IEEE-754 doubles under round-to-nearest, since 0, 1 and 100
    are representable and rounding is monotone. *)
Class PyFloatOrder (F : Type) `{PyFloat F} : Prop := {
  truediv_unit_interval : forall a b : Z,
    0 <= a <= b -> 0 < b ->
    fle (float_of_int 0) (truediv a b) /\ fle (truediv a b) (float_of_int 1);
  fmul_int_100_interval : forall x : F,
    fle (float_of_int 0) x -> fle x (float_of_int 1) ->
    fle (float_of_int 0) (fmul_int x 100) /\
    fle (fmul_int x 100) (float_of_int 100)
}.

Arguments PyFloatOrder F {_}.

(** Exact rational arithmetic as an instance. *)
Module ExactQ.

Definition q_gt_int (x : Q) (k : Z) : bool :=
  match Qcompare x (inject_Z k) with Gt => true | _ => false end.

Definition q_trunc (x : Q) : Z := Z.quot (Qnum x) (Zpos (Qden x)).

#[export] Instance PyFloat_Q : PyFloat Q := {
  truediv a b := (inject_Z a / inject_Z b)%Q;
  fmul_int x k := (x * inject_Z k)%Q;
  fsub x y := (x - y)%Q;
  fgt_int := q_gt_int;
  int_of_float := q_trunc;
  float_of_int := inject_Z;
  fle := Qle;
  is_finite := fun _ => true
}.

End ExactQ.

(** Rationals with the two infinities and NaN, as the values a Python
    float can take; [int(x)] of a non-finite [x], which Python refuses, is
    given as 0. *)
Module ExtendedQ.

Inductive XQ : Type :=
| Finite (q : Q)
| PosInf
| NegInf
| NaN.

Definition xq_mul_int (x : XQ) (k : Z) : XQ :=
  match x with
  | Finite q => Finite (q * inject_Z k)%Q
  | PosInf => if 0 <? k then PosInf else if k <? 0 then NegInf else NaN
  | NegInf => if 0 <? k then NegInf else if k <? 0 then PosInf else NaN
  | NaN => NaN
  end.

Definition xq_sub (x y : XQ) : XQ :=
  match x, y with
  | Finite a, Finite b => Finite (a - b)%Q
  | NaN, _ | _, NaN => NaN
  | PosInf, PosInf | NegInf, NegInf => NaN
  | PosInf, _ | _, NegInf => PosInf
  | NegInf, _ | _, PosInf => NegInf
  end.

Definition xq_gt_int (x : XQ) (k : Z) : bool :=
  match x with
  | Finite q => ExactQ.q_gt_int q k
  | PosInf => true
  | NegInf | NaN => false
  end.

Definition xq_trunc (x : XQ) : Z :=
  match x with
  | Finite q => ExactQ.q_trunc q
  | _ => 0
  end.

Definition xq_le (x y : XQ) : Prop :=
  match x, y with
  | Finite a, Finite b => (a <= b)%Q
  | NaN, _ | _, NaN => False
  | NegInf, _ | _, PosInf => True
  | _, _ => False
  end.

Definition xq_is_finite (x : XQ) : bool :=
  match x with
  | Finite _ => true
  | _ => false
  end.

#[export] Instance PyFloat_XQ : PyFloat XQ := {
  truediv a b := Finite (inject_Z a / inject_Z b)%Q;
  fmul_int := xq_mul_int;
  fsub := xq_sub;
  fgt_int := xq_gt_int;
  int_of_float := xq_trunc;
  float_of_int := fun z => Finite (inject_Z z);
  fle := xq_le;
  is_finite := xq_is_finite
}.

End ExtendedQ.

(** [str(n)] for an int. *)
Definition str_int (z : Z) : string := NilZero.string_of_int (Z.to_int z).

(** ** Python values, exceptions and telemetry events *)

Section Python.

Context {F : Type}.

(** JSON-like Python values: request and response bodies, attribute
    values.  A [dict] is an association list in insertion order. *)
Inductive PyVal : Type :=
| PNone
| PBool (b : bool)
| PInt (z : Z)
| PFloat (f : F)
| PStr (s : string)
| PList (l : list PyVal)
| PDict (d : list (string * PyVal)).

(** [d.get(key)]: the value bound to [key], if any. *)
Fixpoint dict_lookup {V : Type} (d : list (string * V)) (key : string)
  : option V :=
  match d with
  | [] => None
  | (k, v) :: rest => if String.eqb k key then Some v else dict_lookup rest key
  end.

(** [d.get(key, default)]. *)
Definition dict_get (d : list (string * PyVal)) (key : string)
  (default : PyVal) : PyVal :=
  match dict_lookup d key with
  | Some v => v
  | None => default
  end.

Inductive Exn : Type :=
| HTTPException (status_code : Z) (detail : string)
| TypeError (msg : string)
| KeyError (key : string)
| IndexError (msg : string)
| ValueError (msg : string).

(** [f"{type(exc).__name__}: {exc}"], the description the tracing SDK gives
    the status of a span that an exception leaves. *)
Definition exception_text (e : Exn) : string :=
  match e with
  | HTTPException status_code detail =>
      String.append "HTTPException: "
        (String.append (str_int status_code) (String.append ": " detail))
  | TypeError msg => String.append "TypeError: " msg
  | KeyError key =>
      String.append "KeyError: '" (String.append key "'")
  | IndexError msg => String.append "IndexError: " msg
  | ValueError msg => String.append "ValueError: " msg
  end.

Inductive Kind : Type := Counter | Histogram | Gauge.

(** What [meter.create_counter], [create_histogram] and [create_gauge]
    are given. *)
Record Instrument : Type := mkInstrument {
  kind : Kind;
  name : string;
  description : string;
  unit_ : string
}.

(** A piece of an f-string: literal text or an interpolated value, with
    its format specification when it has one. *)
Inductive Piece : Type :=
| Lit (s : string)
| Val (v : PyVal)
| Fmt (v : PyVal) (spec : string).

Inductive Event : Type :=
| GaugeSet (i : Instrument) (v : PyVal)
| CounterAdd (i : Instrument) (amount : Z) (attrs : list (string * PyVal))
| HistogramRecord (i : Instrument) (v : PyVal) (attrs : list (string * PyVal))
| SpanStart (span : string)
| SpanSetAttribute (span key : string) (v : PyVal)
| SpanSetStatusError (span msg : string)
| SpanAddEvent (span msg : string)
| SpanRecordException (span : string) (e : Exn)
| SpanEnd (span : string)
| LogInfo (msg : list Piece)
| LogError (msg : list Piece).

(** ** The effect monad *)

Inductive Result (A : Type) : Type :=
| Return (a : A)
| Raise (e : Exn).

Arguments Return {A} a.
Arguments Raise {A} e.

Definition Eff (S A : Type) : Type := S -> Result A * S * list Event.

Definition ret {S A : Type} (a : A) : Eff S A :=
  fun s => (Return a, s, []).

Definition bind {S A B : Type} (m : Eff S A) (k : A -> Eff S B) : Eff S B :=
  fun s =>
    match m s with
    | (Return a, s1, t1) =>
        match k a s1 with
        | (r, s2, t2) => (r, s2, t1 ++ t2)
        end
    | (Raise e, s1, t1) => (Raise e, s1, t1)
    end.

Definition raise {S A : Type} (e : Exn) : Eff S A :=
  fun s => (Raise e, s, []).

Definition emit {S : Type} (e : Event) : Eff S unit :=
  fun s => (Return tt, s, [e]).

Definition get {S : Type} : Eff S S :=
  fun s => (Return s, s, []).

Definition modify {S : Type} (f : S -> S) : Eff S unit :=
  fun s => (Return tt, f s, []).

(** Running a computation that has no access to the counters (the
    downstream handler chain) from one that has. *)
Definition await {S A : Type} (h : Eff unit A) : Eff S A :=
  fun s => match h tt with (r, _, t) => (r, s, t) end.

(** [with tracer.start_as_current_span(name) as span: body].  The span is
    ended on every exit; an exception leaving the block is recorded on the
    span, the status of the span is set to error with the text of the
    exception, and the exception is raised again. *)
Definition with_span {S A : Type} (span : string) (body : Eff S A)
  : Eff S A :=
  fun s =>
    match body s with
    | (Return a, s1, t) =>
        (Return a, s1, SpanStart span :: t ++ [SpanEnd span])
    | (Raise e, s1, t) =>
        (Raise e, s1,
         SpanStart span ::
         t ++ [SpanRecordException span e;
               SpanSetStatusError span (exception_text e);
               SpanEnd span])
    end.

(** [d[key]]: raises [KeyError] when [key] is absent. *)
Definition getitem {S V : Type} (d : list (string * V)) (key : string)
  : Eff S V :=
  match dict_lookup d key with
  | Some v => ret v
  | None => raise (KeyError key)
  end.

(** [seq[index]] on a list: raises [IndexError] out of range. *)
Definition list_item {S A : Type} (seq : list A) (index : nat) : Eff S A :=
  match nth_error seq index with
  | Some x => ret x
  | None => raise (IndexError "list index out of range")
  end.

(** [for x in xs: body]; an exception in one iteration ends the loop. *)
Fixpoint for_each {S A : Type} (xs : list A) (body : A -> Eff S unit)
  : Eff S unit :=
  match xs with
  | [] => ret tt
  | x :: rest => bind (body x) (fun _ => for_each rest body)
  end.

(** [range(n)]. *)
Definition range (n : nat) : list Z := map Z.of_nat (seq 0 n).

Definition result_of {S A : Type} (x : Result A * S * list Event) : Result A :=
  fst (fst x).
Definition state_of {S A : Type} (x : Result A * S * list Event) : S :=
  snd (fst x).
Definition trace_of {S A : Type} (x : Result A * S * list Event) : list Event :=
  snd x.

End Python.

Arguments Return {A} a.
Arguments Raise {A} e.
Arguments PyVal : clear implicits.
Arguments Piece : clear implicits.
Arguments Event : clear implicits.
Arguments Eff : clear implicits.

Declare Scope eff_scope.
Delimit Scope eff_scope with eff.
Notation "x <- m ;; k" := (bind m (fun x => k))
  (at level 100, m at next level, right associativity) : eff_scope.
Notation "m ;; k" := (bind m (fun _ => k))
  (at level 100, right associativity) : eff_scope.
Open Scope eff_scope.

(** ** Requests, responses and the framework's dispatch *)

(** [request.url]: [str(request.url)] and [request.url.path]. *)
Record URL : Type := mkURL {
  url_str : string;
  path : string
}.

Record Request : Type := mkRequest {
  method : string;
  url : URL
}.

Record Response (F : Type) : Type := mkResponse {
  status_code : Z;
  body : PyVal F
}.

(** The three module-level counters, declared alike at lines 2-4 of
    [src/app/middleware.py] and lines 112-114 of [src/main.py]. *)
Record Globals : Type := mkGlobals {
  total_requests : Z;
  total_errors : Z;
  active_requests : Z
}.

(** Both modules initialise the three counters to 0. *)
Definition initial_globals : Globals :=
  {| total_requests := 0; total_errors := 0; active_requests := 0 |}.

Definition set_total_requests (v : Z) (g : Globals) : Globals :=
  {| total_requests := v;
     total_errors := total_errors g;
     active_requests := active_requests g |}.

Definition set_total_errors (v : Z) (g : Globals) : Globals :=
  {| total_requests := total_requests g;
     total_errors := v;
     active_requests := active_requests g |}.

Definition set_active_requests (v : Z) (g : Globals) : Globals :=
  {| total_requests := total_requests g;
     total_errors := total_errors g;
     active_requests := v |}.

Section Framework.

Context {F : Type} `{PyFloat F}.

(** The type name Python prints in a [TypeError]. *)
Definition type_name (v : PyVal F) : string :=
  match v with
  | PNone => "NoneType"
  | PBool _ => "bool"
  | PInt _ => "int"
  | PFloat _ => "float"
  | PStr _ => "str"
  | PList _ => "list"
  | PDict _ => "dict"
  end.

(** [v > k] for an int literal [k]: defined on numbers (a [bool] counts as
    0 or 1), a [TypeError] on every other value. *)
Definition py_gt_int {S : Type} (v : PyVal F) (k : Z) : Eff F S bool :=
  match v with
  | PInt z => ret (k <? z)
  | PBool b => ret (k <? Z.b2z b)
  | PFloat f => ret (fgt_int f k)
  | _ =>
      raise (TypeError
        (String.append "'>' not supported between instances of '"
          (String.append (type_name v) "' and 'int'")))
  end.

(** [random.choice(seq)] at the drawn index, which [random] takes in
    [range(len(seq))]; an empty [seq] has no index and raises. *)
Definition random_choice {S A : Type} (seq : list A) (index : nat)
  : Eff F S A :=
  match nth_error seq index with
  | Some x => ret x
  | None => raise (IndexError "Cannot choose from an empty sequence")
  end.

(** A value the JSON renderer of the framework accepts: one that holds no
    infinite or NaN float. *)
Fixpoint json_compliant (v : PyVal F) : bool :=
  match v with
  | PFloat f => is_finite f
  | PList l =>
      (fix all (l : list (PyVal F)) : bool :=
         match l with
         | [] => true
         | x :: rest => json_compliant x && all rest
         end) l
  | PDict d =>
      (fix all (d : list (string * PyVal F)) : bool :=
         match d with
         | [] => true
         | (_, x) :: rest => json_compliant x && all rest
         end) d
  | _ => true
  end.

(** What FastAPI makes of a path operation function (outside the
    repository): the returned value becomes the body of a 200 response,
    unless it holds a float that JSON cannot carry, for which rendering the
    response raises [ValueError]; an [HTTPException] becomes a response
    with its status code; any other exception is raised to the middleware
    that called [call_next]. *)
Definition route (endpoint : Eff F unit (PyVal F)) : Eff F unit (Response F) :=
  fun u =>
    match endpoint u with
    | (Return b, u1, t) =>
        if json_compliant b
        then (Return {| status_code := 200; body := b |}, u1, t)
        else
          (Raise
             (ValueError "Out of range float values are not JSON compliant"),
           u1, t)
    | (Raise (HTTPException sc detail), u1, t) =>
        (Return {| status_code := sc;
                   body := PDict [("detail", PStr detail)] |}, u1, t)
    | (Raise e, u1, t) => (Raise e, u1, t)
    end.

End Framework.

(** ** [src/app/otel_setup.py]: the instrument registry *)

Module OtelSetup.

(** [create_metrics_instruments(meter)].  An instrument is identified by
    what [meter.create_*] is given. *)
Definition create_metrics_instruments : list (string * Instrument) :=
  [ ("request_counter",
     {| kind := Counter; name := "http_requests_custom_total";
        description := "Total HTTP requests (custom counter)"; unit_ := "" |});
    ("response_time_histogram",
     {| kind := Histogram; name := "http_request_duration_seconds";
        description := "HTTP request duration in seconds"; unit_ := "s" |});
    ("orders_counter",
     {| kind := Counter; name := "orders_created_total";
        description := "Total orders created"; unit_ := "" |});
    ("user_lookups_counter",
     {| kind := Counter; name := "user_lookups_total";
        description := "Total user lookups performed"; unit_ := "" |});
    ("active_requests_gauge",
     {| kind := Gauge; name := "active_requests_current";
        description := "Currently active HTTP requests"; unit_ := "" |});
    ("error_rate_gauge",
     {| kind := Gauge; name := "error_rate_current";
        description := "Current error rate percentage"; unit_ := "" |}) ].


(** The [Telemetry] object, as far as the application observes it: the
    class names of its tracer, meter and logger ([get_config]). *)
Record Telemetry : Type := mkTelemetry {
  tracer_class : string;
  meter_class : string;
  logger_class : string
}.

End OtelSetup.

(** ** [src/app/main.py] and [src/app/middleware.py] *)

Module App.

(** [metrics = create_metrics_instruments(telemetry.meter)]. *)
Definition metrics : list (string * Instrument) :=
  OtelSetup.create_metrics_instruments.

Section Endpoints.

Context {F : Type} `{PyFloat F}.

(** [GET /users/{user_id}]. *)
Definition get_user (user_id : Z) : Eff F unit (PyVal F) :=
  with_span "get_user"
    (emit (SpanSetAttribute "get_user" "user.id" (PInt user_id)) ;;
     user_lookups_counter <- getitem metrics "user_lookups_counter" ;;
     emit (CounterAdd user_lookups_counter 1
             [("user_type",
               PStr (if user_id <? 1000 then "standard" else "premium"))]) ;;
     emit (LogInfo [Lit "ğŸ‘¤ Looking up user "; Val (PInt user_id)]) ;;
     if user_id <=? 0 then
       (emit (SpanSetStatusError "get_user" "Invalid user ID") ;;
        raise (HTTPException 400 "User ID must be positive"))
     else
       ret (PDict
              [("user_id", PInt user_id);
               ("name", PStr (String.append "User " (str_int user_id)));
               ("type",
                PStr (if 1000 <=? user_id then "premium" else "standard"))])).

(** [POST /orders]; [now] is the reading of [time.time()] at line 122. *)
Definition create_order (now : F) (order : list (string * PyVal F))
  : Eff F unit (PyVal F) :=
  with_span "create_order"
    (let amount := dict_get order "amount" (PInt 0) in
     emit (SpanSetAttribute "create_order" "order.amount" amount) ;;
     orders_counter <- getitem metrics "orders_counter" ;;
     large <- py_gt_int amount 100 ;;
     emit (CounterAdd orders_counter 1
             [("order_size", PStr (if large then "large" else "small"));
              ("currency", PStr "USD")]) ;;
     emit (LogInfo [Lit "ğŸ“¦ Creating order for $"; Val amount]) ;;
     with_span "validate_order"
       (emit (SpanAddEvent "validate_order" "Order validation completed")) ;;
     with_span "process_payment"
       (emit (SpanSetAttribute "process_payment" "payment.method"
                (PStr "credit_card")) ;;
        emit (SpanAddEvent "process_payment" "Payment processed")) ;;
     with_span "update_inventory"
       (emit (SpanAddEvent "update_inventory" "Inventory updated")) ;;
     ret (PDict
            [("order_id",
              PStr (String.append "order_" (str_int (int_of_float now))));
             ("amount", amount);
             ("status", PStr "created")])).

(** [GET /health]. *)
Definition health : Eff F unit (PyVal F) :=
  with_span "health_check"
    (emit (LogInfo [Lit "â¤ï¸ Health check"]) ;;
     ret (PDict
            [("status", PStr "healthy");
             ("service", PStr "fastapi-clean-demo");
             ("observability", PStr "enabled")])).

(** [GET /error]. *)
Definition error_endpoint : Eff F unit (PyVal F) :=
  with_span "error_operation"
    (emit (LogError [Lit "ğŸ’¥ Triggering error for metrics testing"]) ;;
     emit (SpanSetStatusError "error_operation" "Demo error") ;;
     raise (HTTPException 500 "Demo error for testing metrics")).

(** The list [random.choice] draws from at line 199. *)
Definition random_outcomes : list bool := [true; true; true; false].

(** [GET /random]; [index] is the index [random.choice] draws and [value]
    the result of [random.randint(1, 100)]. *)
Definition random_endpoint (index : nat) (value : Z) : Eff F unit (PyVal F) :=
  with_span "random_operation"
    (success <- random_choice random_outcomes index ;;
     if success : bool then
       (emit (LogInfo [Lit "ğŸ² Random operation succeeded"]) ;;
        ret (PDict [("result", PStr "success"); ("value", PInt value)]))
     else
       (emit (LogError [Lit "ğŸ² Random operation failed"]) ;;
        emit (SpanSetStatusError "random_operation" "Random failure") ;;
        raise (HTTPException 500 "Random failure"))).

(** [GET /]. *)
Definition root : Eff F unit (PyVal F) :=
  with_span "homepage"
    (emit (SpanSetAttribute "homepage" "page.type" (PStr "homepage")) ;;
     emit (LogInfo [Lit "ğŸ  Homepage accessed"]) ;;
     ret (PDict
            [("message", PStr "FastAPI with Pydantic OTEL Setup!");
             ("setup", PStr "Clean, type-safe, and validated");
             ("observability",
              PList [PStr "metrics"; PStr "traces"; PStr "logs"])])).

(** [GET /config]; [telemetry] is the module-level [Telemetry] object. *)
Definition get_config (telemetry : OtelSetup.Telemetry)
  : Eff F unit (PyVal F) :=
  with_span "get_config"
    (emit (LogInfo [Lit "ğŸ“‹ Configuration requested"]) ;;
     ret (PDict
            [("message", PStr "OTEL Configuration");
             ("setup_type", PStr "Pydantic-based");
             ("components",
              PDict
                [("tracer", PStr (OtelSetup.tracer_class telemetry));
                 ("meter", PStr (OtelSetup.meter_class telemetry));
                 ("telemetry.logger",
                  PStr (OtelSetup.logger_class telemetry))])])).

(** [GET /metrics-demo]; [user_type_index i] is the index [random.choice]
    draws in iteration [i] of the loop, [orders] the result of
    [random.randint(1, 3)] and [order_size_index] the index of the last
    [random.choice]. *)
Definition metrics_demo (user_type_index : Z -> nat) (orders : Z)
  (order_size_index : nat) : Eff F unit (PyVal F) :=
  with_span "metrics_demo"
    (for_each (range 5)
       (fun i =>
          user_lookups_counter <- getitem metrics "user_lookups_counter" ;;
          user_type <-
            random_choice ["standard"; "premium"] (user_type_index i) ;;
          emit (CounterAdd user_lookups_counter 1
                  [("user_type", PStr user_type)])) ;;
     orders_counter <- getitem metrics "orders_counter" ;;
     order_size <- random_choice ["small"; "large"] order_size_index ;;
     emit (CounterAdd orders_counter orders
             [("order_size", PStr order_size); ("currency", PStr "USD")]) ;;
     emit (LogInfo [Lit "ğŸ“Š Generated demo metrics"]) ;;
     ret (PDict
            [("message", PStr "Demo metrics generated!");
             ("generated",
              PDict [("user_lookups", PInt 5);
                     ("orders", PStr "1-3 random orders")])])).

(** [GET /slow]. *)
Definition slow_endpoint : Eff F unit (PyVal F) :=
  with_span "slow_operation"
    (emit (LogInfo [Lit "ğŸŒ Starting slow operation"]) ;;
     for_each (range 3)
       (fun i =>
          let step := String.append "slow_step_" (str_int (i + 1)) in
          with_span step
            (emit (SpanAddEvent step
                     (String.append "Completed step " (str_int (i + 1)))) ;;
             emit (LogInfo [Lit "â³ Completed slow step ";
                            Val (PInt (i + 1))]))) ;;
     emit (LogInfo [Lit "âœ… Slow operation completed"]) ;;
     ret (PDict
            [("message", PStr "Slow operation completed");
             ("duration", PStr "~2 seconds")])).

End Endpoints.

Section Middleware.

Context {F : Type} `{PyFloat F}.

(** [observability_middleware(request, call_next)]; [start_time] and
    [end_time] are the readings of [time.time()] at lines 15 and 29. *)
Definition observability_middleware (start_time end_time : F)
  (request : Request) (call_next : Request -> Eff F unit (Response F))
  : Eff F Globals (Response F) :=
  modify (fun g => set_active_requests (active_requests g + 1) g) ;;
  modify (fun g => set_total_requests (total_requests g + 1) g) ;;
  g <- get ;;
  active_requests_gauge <- getitem metrics "active_requests_gauge" ;;
  emit (GaugeSet active_requests_gauge (PInt (active_requests g))) ;;
  with_span "http_request"
    (emit (SpanSetAttribute "http_request" "http.method"
             (PStr (method request))) ;;
     emit (SpanSetAttribute "http_request" "http.url"
             (PStr (url_str (url request)))) ;;
     emit (LogInfo [Lit "🚀 "; Val (PStr (method request)); Lit " ";
                    Val (PStr (path (url request)))]) ;;
     response <- await (call_next request) ;;
     let duration := fsub end_time start_time in
     modify (fun g => set_active_requests (active_requests g - 1) g) ;;
     g <- get ;;
     active_requests_gauge <- getitem metrics "active_requests_gauge" ;;
     emit (GaugeSet active_requests_gauge (PInt (active_requests g))) ;;
     request_counter <- getitem metrics "request_counter" ;;
     emit (CounterAdd request_counter 1
             [("method", PStr (method request));
              ("endpoint", PStr (path (url request)));
              ("status_code", PStr (str_int (status_code response)))]) ;;
     response_time_histogram <- getitem metrics "response_time_histogram" ;;
     emit (HistogramRecord response_time_histogram (PFloat duration)
             [("method", PStr (method request));
              ("endpoint", PStr (path (url request)))]) ;;
     (if 400 <=? status_code response then
        (modify (fun g => set_total_errors (total_errors g + 1) g) ;;
         emit (LogError [Lit "❌ Request failed: ";
                         Val (PInt (status_code response))]))
      else ret tt) ;;
     g <- get ;;
     let error_rate :=
       if 0 <? total_requests g
       then PFloat (fmul_int (truediv (total_errors g) (total_requests g)) 100)
       else PInt 0 in
     error_rate_gauge <- getitem metrics "error_rate_gauge" ;;
     emit (GaugeSet error_rate_gauge error_rate) ;;
     emit (SpanSetAttribute "http_request" "http.status_code"
             (PInt (status_code response))) ;;
     emit (SpanSetAttribute "http_request" "http.response_time_ms"
             (PFloat (fmul_int duration 1000))) ;;
     emit (LogInfo [Lit "✅ "; Val (PStr (method request)); Lit " ";
                    Val (PStr (path (url request))); Lit " - ";
                    Val (PInt (status_code response)); Lit " (";
                    Fmt (PFloat duration) ".3f"; Lit "s)"]) ;;
     ret response).

End Middleware.

End App.

(** ** [src/main.py]: instruments and middleware *)

Module Main.

Definition custom_request_counter : Instrument :=
  {| kind := Counter; name := "http_requests_custom_total";
     description := "Total HTTP requests (custom counter)"; unit_ := "" |}.

Definition response_time_histogram : Instrument :=
  {| kind := Histogram; name := "http_request_duration_seconds";
     description := "HTTP request duration in seconds"; unit_ := "s" |}.

Definition active_requests_gauge : Instrument :=
  {| kind := Gauge; name := "active_requests_current";
     description := "Currently active HTTP requests"; unit_ := "" |}.

Definition error_rate_gauge : Instrument :=
  {| kind := Gauge; name := "error_rate_current";
     description := "Current error rate percentage"; unit_ := "" |}.

Definition orders_counter : Instrument :=
  {| kind := Counter; name := "orders_created_total";
     description := "Total orders created"; unit_ := "" |}.

Definition user_lookups_counter : Instrument :=
  {| kind := Counter; name := "user_lookups_total";
     description := "Total user lookups performed"; unit_ := "" |}.

Section Endpoints.

Context {F : Type} `{PyFloat F}.

(** [GET /]. *)
Definition root : Eff F unit (PyVal F) :=
  with_span "homepage"
    (emit (SpanSetAttribute "homepage" "page.type" (PStr "homepage")) ;;
     emit (LogInfo [Lit "🏠 Homepage accessed"]) ;;
     ret (PDict
            [("message", PStr "FastAPI with Prometheus Metrics!");
             ("metrics_flow",
              PStr "FastAPI → OTEL Collector → Prometheus → Grafana");
             ("endpoints",
              PList [PStr "/"; PStr "/users/{id}"; PStr "/orders";
                     PStr "/health"; PStr "/metrics-demo"])])).

(** [GET /users/{user_id}]. *)
Definition get_user (user_id : Z) : Eff F unit (PyVal F) :=
  with_span "get_user"
    (emit (SpanSetAttribute "get_user" "user.id" (PInt user_id)) ;;
     emit (CounterAdd user_lookups_counter 1
             [("user_type",
               PStr (if user_id <? 1000 then "standard" else "premium"))]) ;;
     emit (LogInfo [Lit "👤 Looking up user "; Val (PInt user_id)]) ;;
     if user_id <=? 0 then
       (emit (SpanSetStatusError "get_user" "Invalid user ID") ;;
        raise (HTTPException 400 "User ID must be positive"))
     else
       ret (PDict
              [("user_id", PInt user_id);
               ("name", PStr (String.append "User " (str_int user_id)));
               ("type",
                PStr (if 1000 <=? user_id then "premium" else "standard"))])).

(** [POST /orders]; [now] is the reading of [time.time()] at line 231. *)
Definition create_order (now : F) (order : list (string * PyVal F))
  : Eff F unit (PyVal F) :=
  with_span "create_order"
    (let amount := dict_get order "amount" (PInt 0) in
     emit (SpanSetAttribute "create_order" "order.amount" amount) ;;
     large <- py_gt_int amount 100 ;;
     emit (CounterAdd orders_counter 1
             [("order_size", PStr (if large then "large" else "small"));
              ("currency", PStr "USD")]) ;;
     emit (LogInfo [Lit "📦 Creating order for $"; Val amount]) ;;
     ret (PDict
            [("order_id",
              PStr (String.append "order_" (str_int (int_of_float now))));
             ("amount", amount);
             ("status", PStr "created")])).

(** [GET /health]. *)
Definition health : Eff F unit (PyVal F) :=
  with_span "health_check"
    (emit (LogInfo [Lit "❤️ Health check"]) ;;
     ret (PDict
            [("status", PStr "healthy");
             ("service", PStr "fastapi-prometheus-demo");
             ("metrics", PStr "enabled")])).

(** [GET /metrics-demo]; the draws are as for the endpoint of
    [src/app/main.py]. *)
Definition metrics_demo (user_type_index : Z -> nat) (orders : Z)
  (order_size_index : nat) : Eff F unit (PyVal F) :=
  let currencies := ["USD"; "INR"; "CNF"; "CKD"; "DUMMY"] in
  with_span "metrics_demo"
    (for_each (range 5)
       (fun i =>
          user_type <-
            random_choice ["standard"; "premium"] (user_type_index i) ;;
          emit (CounterAdd user_lookups_counter 1
                  [("user_type", PStr user_type)])) ;;
     order_size <- random_choice ["small"; "large"] order_size_index ;;
     currency <- list_item currencies 2 ;;
     emit (CounterAdd orders_counter orders
             [("order_size", PStr order_size); ("currency", PStr currency)]) ;;
     emit (LogInfo [Lit "📊 Generated demo metrics"]) ;;
     ret (PDict
            [("message", PStr "Demo metrics generated!");
             ("generated",
              PDict [("user_lookups", PInt 5);
                     ("orders", PStr "1-3 random orders")])])).

(** [GET /slow]. *)
Definition slow_endpoint : Eff F unit (PyVal F) :=
  with_span "slow_operation"
    (emit (LogInfo [Lit "🐌 Starting slow operation"]) ;;
     emit (LogInfo [Lit "✅ Slow operation completed"]) ;;
     ret (PDict
            [("message", PStr "Slow operation completed");
             ("duration", PStr "2 seconds")])).

(** [GET /error]. *)
Definition error_endpoint : Eff F unit (PyVal F) :=
  with_span "error_operation"
    (emit (LogError [Lit "💥 Triggering error for metrics testing"]) ;;
     emit (SpanSetStatusError "error_operation" "Demo error") ;;
     raise (HTTPException 500 "Demo error for testing metrics")).

(** [GET /random]; the draws are as for the endpoint of
    [src/app/main.py]. *)
Definition random_endpoint (index : nat) (value : Z) : Eff F unit (PyVal F) :=
  with_span "random_operation"
    (success <- random_choice [true; true; true; false] index ;;
     if success : bool then
       (emit (LogInfo [Lit "🎲 Random operation succeeded"]) ;;
        ret (PDict [("result", PStr "success"); ("value", PInt value)]))
     else
       (emit (LogError [Lit "🎲 Random operation failed"]) ;;
        emit (SpanSetStatusError "random_operation" "Random failure") ;;
        raise (HTTPException 500 "Random failure"))).

End Endpoints.

Section Middleware.

Context {F : Type} `{PyFloat F}.

(** [metrics_middleware(request, call_next)]; [start_time] and [end_time]
    are the readings of [time.time()] at lines 121 and 135. *)
Definition metrics_middleware (start_time end_time : F)
  (request : Request) (call_next : Request -> Eff F unit (Response F))
  : Eff F Globals (Response F) :=
  modify (fun g => set_active_requests (active_requests g + 1) g) ;;
  modify (fun g => set_total_requests (total_requests g + 1) g) ;;
  g <- get ;;
  emit (GaugeSet active_requests_gauge (PInt (active_requests g))) ;;
  with_span "http_request"
    (emit (SpanSetAttribute "http_request" "http.method"
             (PStr (method request))) ;;
     emit (SpanSetAttribute "http_request" "http.url"
             (PStr (url_str (url request)))) ;;
     emit (LogInfo [Lit "🚀 "; Val (PStr (method request)); Lit " ";
                    Val (PStr (path (url request)))]) ;;
     response <- await (call_next request) ;;
     let duration := fsub end_time start_time in
     modify (fun g => set_active_requests (active_requests g - 1) g) ;;
     g <- get ;;
     emit (GaugeSet active_requests_gauge (PInt (active_requests g))) ;;
     emit (CounterAdd custom_request_counter 1
             [("method", PStr (method request));
              ("endpoint", PStr (path (url request)));
              ("status_code", PStr (str_int (status_code response)))]) ;;
     emit (HistogramRecord response_time_histogram (PFloat duration)
             [("method", PStr (method request));
              ("endpoint", PStr (path (url request)))]) ;;
     (if 400 <=? status_code response then
        (modify (fun g => set_total_errors (total_errors g + 1) g) ;;
         emit (LogError [Lit "❌ Request failed: ";
                         Val (PInt (status_code response))]))
      else ret tt) ;;
     g <- get ;;
     let error_rate :=
       if 0 <? total_requests g
       then PFloat (fmul_int (truediv (total_errors g) (total_requests g)) 100)
       else PInt 0 in
     emit (GaugeSet error_rate_gauge error_rate) ;;
     emit (SpanSetAttribute "http_request" "http.status_code"
             (PInt (status_code response))) ;;
     emit (SpanSetAttribute "http_request" "http.response_time_ms"
             (PFloat (fmul_int duration 1000))) ;;
     emit (LogInfo [Lit "✅ "; Val (PStr (method request)); Lit " ";
                    Val (PStr (path (url request))); Lit " - ";
                    Val (PInt (status_code response)); Lit " (";
                    Fmt (PFloat duration) ".3f"; Lit "s)"]) ;;
     ret response).

End Middleware.

End Main.

(** ** One run of the middleware, in closed form *)

Section Runs.

Context {F : Type} `{PyFloat F}.

(** The counters after the block that precedes [await call_next]. *)
Definition on_enter (g : Globals) : Globals :=
  set_total_requests (total_requests g + 1)
    (set_active_requests (active_requests g + 1) g).

(** The counters after the block that follows [await call_next], for a
    response of status [sc]. *)
Definition on_response (sc : Z) (g : Globals) : Globals :=
  let g1 := set_active_requests (active_requests g - 1) g in
  if 400 <=? sc then set_total_errors (total_errors g1 + 1) g1 else g1.

(** The value line 55 computes from the two counters. *)
Definition error_rate_value (g : Globals) : PyVal F :=
  if 0 <? total_requests g
  then PFloat (fmul_int (truediv (total_errors g) (total_requests g)) 100)
  else PInt 0.

(** Events of the block that precedes [await call_next]; [g] holds the
    counters after that block. *)
Definition enter_trace (request : Request) (g : Globals) : list (Event F) :=
  [ GaugeSet Main.active_requests_gauge (PInt (active_requests g));
    SpanStart "http_request";
    SpanSetAttribute "http_request" "http.method" (PStr (method request));
    SpanSetAttribute "http_request" "http.url" (PStr (url_str (url request)));
    LogInfo [Lit "🚀 "; Val (PStr (method request)); Lit " ";
             Val (PStr (path (url request)))] ].

(** Events of the block that follows [await call_next]; [g] holds the
    counters after that block. *)
Definition response_trace (start_time end_time : F) (request : Request)
  (response : Response F) (g : Globals) : list (Event F) :=
  [ GaugeSet Main.active_requests_gauge (PInt (active_requests g));
    CounterAdd Main.custom_request_counter 1
      [("method", PStr (method request));
       ("endpoint", PStr (path (url request)));
       ("status_code", PStr (str_int (status_code response)))];
    HistogramRecord Main.response_time_histogram
      (PFloat (fsub end_time start_time))
      [("method", PStr (method request));
       ("endpoint", PStr (path (url request)))] ]
  ++ (if 400 <=? status_code response
      then [LogError [Lit "❌ Request failed: ";
                      Val (PInt (status_code response))]]
      else [])
  ++ [ GaugeSet Main.error_rate_gauge (error_rate_value g);
       SpanSetAttribute "http_request" "http.status_code"
         (PInt (status_code response));
       SpanSetAttribute "http_request" "http.response_time_ms"
         (PFloat (fmul_int (fsub end_time start_time) 1000));
       LogInfo [Lit "✅ "; Val (PStr (method request)); Lit " ";
                Val (PStr (path (url request))); Lit " - ";
                Val (PInt (status_code response)); Lit " (";
                Fmt (PFloat (fsub end_time start_time)) ".3f"; Lit "s)"];
       SpanEnd "http_request" ].

(** Events that close the request span when [call_next] raises. *)
Definition raise_trace (e : Exn) : list (Event F) :=
  [SpanRecordException "http_request" e;
   SpanSetStatusError "http_request" (exception_text e);
   SpanEnd "http_request"].

(** The closed form of a run, given what the handler chain did. *)
Definition run_summary (start_time end_time : F) (request : Request)
  (outcome : Result (Response F) * unit * list (Event F)) (g : Globals)
  : Result (Response F) * Globals * list (Event F) :=
  match outcome with
  | (Return response, _, t) =>
      let g' := on_response (status_code response) (on_enter g) in
      (Return response, g',
       enter_trace request (on_enter g) ++ t ++
       response_trace start_time end_time request response g')
  | (Raise e, _, t) =>
      (Raise e, on_enter g,
       enter_trace request (on_enter g) ++ t ++ raise_trace e)
  end.

End Runs.

(** ** Observations on results and traces *)

Section Observations.

Context {F : Type} `{PyFloat F}.

(** Status code of the response, when there is one. *)
Definition response_status (r : Result (Response F)) : option Z :=
  match r with
  | Return response => Some (status_code response)
  | Raise _ => None
  end.

(** A field of the response body, when the body is an object. *)
Definition response_field (r : Result (Response F)) (key : string)
  : option (PyVal F) :=
  match r with
  | Return response =>
      match body response with
      | PDict d => dict_lookup d key
      | _ => None
      end
  | Raise _ => None
  end.

(** The [add] calls on the counter named [instrument], in order. *)
Definition counter_adds (instrument : string) (t : list (Event F))
  : list (Z * list (string * PyVal F)) :=
  flat_map
    (fun e =>
       match e with
       | CounterAdd i n attrs =>
           if String.eqb (name i) instrument then [(n, attrs)] else []
       | _ => []
       end) t.

(** The values [set] on the gauge named [instrument], in order. *)
Definition gauge_sets (instrument : string) (t : list (Event F))
  : list (PyVal F) :=
  flat_map
    (fun e =>
       match e with
       | GaugeSet i v => if String.eqb (name i) instrument then [v] else []
       | _ => []
       end) t.

(** The values Python can compare with an int. *)
Definition is_number (v : PyVal F) : bool :=
  match v with
  | PInt _ | PBool _ | PFloat _ => true
  | _ => false
  end.

(** The numbers a JSON response can carry: ints, bools and finite
    floats. *)
Definition is_finite_number (v : PyVal F) : bool :=
  match v with
  | PInt _ | PBool _ => true
  | PFloat f => is_finite f
  | _ => false
  end.

(** The meaning of [v > k] on a number. *)
Definition exceeds (v : PyVal F) (k : Z) : Prop :=
  match v with
  | PInt z => k < z
  | PBool b => k < Z.b2z b
  | PFloat f => fgt_int f k = true
  | _ => False
  end.

(** The computation returned a value. *)
Definition returns {A : Type} (r : Result A) : bool :=
  match r with
  | Return _ => true
  | Raise _ => false
  end.

(** The computation raised [HTTPException] with status code [sc]. *)
Definition raises_http {A : Type} (sc : Z) (r : Result A) : bool :=
  match r with
  | Raise (HTTPException s _) => s =? sc
  | _ => false
  end.

(** ** Sequences of requests *)

(** One request as the middleware sees it: the two clock readings, the
    request and the downstream handler chain. *)
Record Run : Type := mkRun {
  run_start : F;
  run_end : F;
  run_request : Request;
  run_call_next : Request -> Eff F unit (Response F)
}.

Definition run_middleware (r : Run) : Eff F Globals (Response F) :=
  App.observability_middleware (run_start r) (run_end r) (run_request r)
    (run_call_next r).

(** What the handler chain of [r] does. *)
Definition downstream (r : Run) : Result (Response F) * unit * list (Event F) :=
  run_call_next r (run_request r) tt.

(** The handler chain produced a response. *)
Definition completes (r : Run) : bool :=
  match result_of (downstream r) with
  | Return _ => true
  | Raise _ => false
  end.

(** The handler chain produced a response with status code >= 400. *)
Definition is_error (r : Run) : bool :=
  match result_of (downstream r) with
  | Return response => 400 <=? status_code response
  | Raise _ => false
  end.

(** Requests served one after the other, each through the middleware; an
    exception leaving the middleware ends that request only. *)
Fixpoint serve (runs : list Run) (g : Globals) : Globals * list (Event F) :=
  match runs with
  | [] => (g, [])
  | r :: rest =>
      match run_middleware r g with
      | (_, g1, t1) =>
          match serve rest g1 with
          | (g2, t2) => (g2, t1 ++ t2)
          end
      end
  end.

(** Number of runs with an error response. *)
Definition count_errors (runs : list Run) : Z :=
  Z.of_nat (List.length (filter is_error runs)).

(** ** Span discipline and metric events *)

(** Replays the span records of a trace against the stack [opened] of the
    spans that are open, innermost first: a span is pushed when it starts,
    must be innermost when it ends, and every attribute, status, event or
    exception record must be made on the innermost open span.  The result
    is the stack after the trace, or [None] when a record breaks the
    discipline. *)
Fixpoint span_stack (opened : list string) (t : list (Event F))
  : option (list string) :=
  match t with
  | [] => Some opened
  | SpanStart s :: rest => span_stack (s :: opened) rest
  | SpanEnd s :: rest =>
      match opened with
      | top :: below =>
          if String.eqb top s then span_stack below rest else None
      | [] => None
      end
  | (SpanSetAttribute s _ _ | SpanSetStatusError s _ | SpanAddEvent s _
    | SpanRecordException s _) :: rest =>
      match opened with
      | top :: _ => if String.eqb top s then span_stack opened rest else None
      | [] => None
      end
  | _ :: rest => span_stack opened rest
  end.

(** A computation whose trace, started with [top] as the innermost open
    spans above any others, leaves the same spans open, whatever its
    state and whether it returns or raises. *)
Definition spans_ok {S A : Type} (top : list string) (m : Eff F S A) : Prop :=
  forall (s : S) (base : list string),
    span_stack (top ++ base) (trace_of (m s)) = Some (top ++ base).



(** Log records, and a trace without them: its span and metric events. *)
Definition is_log (e : Event F) : bool :=
  match e with
  | LogInfo _ | LogError _ => true
  | _ => false
  end.

Definition without_logs (t : list (Event F)) : list (Event F) :=
  filter (fun e => negb (is_log e)) t.

(** The events recorded on the instrument named [instrument]. *)
Definition on_instrument (instrument : string) (e : Event F) : bool :=
  match e with
  | GaugeSet i _ | CounterAdd i _ _ | HistogramRecord i _ _ =>
      String.eqb (name i) instrument
  | _ => false
  end.

Definition metric_events (instrument : string) (t : list (Event F))
  : list (Event F) :=
  filter (on_instrument instrument) t.

(** The handler chain of [r] records nothing on [instrument]. *)
Definition quiet_on (instrument : string) (r : Run) : Prop :=
  metric_events instrument (trace_of (downstream r)) = [].

End Observations.

Arguments Run : clear implicits.

(** Probability of an event under a uniform draw of an index in
    [range(n)]. *)
Definition probability (event : nat -> bool) (n : nat) : Q :=
  (Z.of_nat (List.length (filter event (seq 0 n))) # Pos.of_nat n)%Q.

(** ** Interleaved requests *)

(** The middleware suspends only at [await call_next(request)], so on one
    event loop the block before it and the block after it each run without
    interruption, while the requests themselves overlap.  [on_enter] and
    [on_response] are the effects of the two blocks on the counters, and
    [in_flight] counts the requests that are suspended at the [await]. *)
Record System : Type := mkSystem {
  counters : Globals;
  in_flight : Z
}.

Definition initial_system : System :=
  {| counters := initial_globals; in_flight := 0 |}.

Inductive step : System -> System -> Prop :=
| step_enter : forall s,
    step s {| counters := on_enter (counters s);
              in_flight := in_flight s + 1 |}
| step_response : forall s sc,
    0 < in_flight s ->
    step s {| counters := on_response sc (counters s);
              in_flight := in_flight s - 1 |}
| step_raise : forall s,
    0 < in_flight s ->
    step s {| counters := counters s; in_flight := in_flight s - 1 |}.

Inductive reachable : System -> Prop :=
| reachable_initial : reachable initial_system
| reachable_step : forall s s', reachable s -> step s s' -> reachable s'.

Definition system_invariant (s : System) : Prop :=
  0 <= total_errors (counters s) /\
  total_errors (counters s) + in_flight s <= total_requests (counters s) /\
  0 <= in_flight s <= active_requests (counters s).

(** What the event loop does next: resume a new request up to its
    [await], resume a suspended one with a response of status [sc], or
    resume a suspended one with an exception. *)
Inductive Action : Type :=
| Enter
| Respond (sc : Z)
| Fail.

Definition act (a : Action) (s : System) : option System :=
  match a with
  | Enter =>
      Some {| counters := on_enter (counters s);
              in_flight := in_flight s + 1 |}
  | Respond sc =>
      if 0 <? in_flight s
      then Some {| counters := on_response sc (counters s);
                   in_flight := in_flight s - 1 |}
      else None
  | Fail =>
      if 0 <? in_flight s
      then Some {| counters := counters s; in_flight := in_flight s - 1 |}
      else None
  end.

(** A schedule is a list of actions; it is defined when no action resumes
    a request that is not suspended. *)
Fixpoint schedule (actions : list Action) (s : System) : option System :=
  match actions with
  | [] => Some s
  | a :: rest =>
      match act a s with
      | Some s1 => schedule rest s1
      | None => None
      end
  end.

Definition count_actions (p : Action -> bool) (actions : list Action) : Z :=
  Z.of_nat (List.length (filter p actions)).

Definition is_enter (a : Action) : bool :=
  match a with Enter => true | _ => false end.

Definition is_error_response (a : Action) : bool :=
  match a with Respond sc => 400 <=? sc | _ => false end.

Definition is_response (a : Action) : bool :=
  match a with Respond _ => true | _ => false end.

Definition is_fail (a : Action) : bool :=
  match a with Fail => true | _ => false end.

(** ** Concrete runs *)

Module Examples.

Import ExactQ.

Definition users_request (user_id : string) : Request :=
  {| method := "GET";
     url := {| url_str := String.append "http://localhost:8000/users/" user_id;
               path := String.append "/users/" user_id |} |}.

Definition orders_request : Request :=
  {| method := "POST";
     url := {| url_str := "http://localhost:8000/orders";
               path := "/orders" |} |}.

(** [GET /users/-5]. *)
Definition failed_lookup : Run Q :=
  {| run_start := 12%Q; run_end := 13%Q;
     run_request := users_request "-5";
     run_call_next := fun _ => route (App.get_user (-5)) |}.

(** [GET /users/5] followed by [GET /users/-5]. *)
Definition two_lookups : list (Run Q) :=
  [ {| run_start := 10%Q; run_end := 11%Q;
       run_request := users_request "5";
       run_call_next := fun _ => route (App.get_user 5) |};
    failed_lookup ].

(** [POST /orders] with body [{"amount": "abc"}]. *)
Definition text_amount_order : Run Q :=
  {| run_start := 20%Q; run_end := 21%Q;
     run_request := orders_request;
     run_call_next :=
       fun _ => route (App.create_order 21%Q [("amount", PStr "abc")]) |}.

End Examples.

(** * Properties *)

#[local] Arguments Z.leb : simpl never.
#[local] Arguments Z.ltb : simpl never.
#[local] Arguments Z.add : simpl never.
#[local] Arguments Z.sub : simpl never.
#[local] Arguments str_int : simpl never.

(** Runs the monadic program symbolically and splits on what the handler
    chain and the status test do. *)
Ltac closed_form call_next request :=
  unfold run_summary, bind, with_span, await, modify, get, emit, ret; simpl;
  destruct (call_next request tt) as [[[?response | ?e] ?u] ?t]; simpl;
  [ unfold response_trace, on_response, error_rate_value; simpl;
    match goal with
    | |- context [400 <=? ?sc] => destruct (400 <=? sc)
    end; simpl; rewrite <- app_assoc; reflexivity
  | reflexivity ].

Section RunLemmas.

Context {F : Type} `{PyFloat F}.

Lemma observability_middleware_summary :
  forall (start_time end_time : F) (request : Request)
         (call_next : Request -> Eff F unit (Response F)) (g : Globals),
    App.observability_middleware start_time end_time request call_next g =
    run_summary start_time end_time request (call_next request tt) g.
Proof.
  intros. unfold App.observability_middleware. closed_form call_next request.
Qed.

Lemma metrics_middleware_summary :
  forall (start_time end_time : F) (request : Request)
         (call_next : Request -> Eff F unit (Response F)) (g : Globals),
    Main.metrics_middleware start_time end_time request call_next g =
    run_summary start_time end_time request (call_next request tt) g.
Proof.
  intros. unfold Main.metrics_middleware. closed_form call_next request.
Qed.

End RunLemmas.

(** ** The endpoints *)

Section EndpointProperties.

Context {F : Type} `{PyFloat F}.

(** C3. For every integer [user_id], [GET /users/{user_id}] answers 400
    when [user_id <= 0] (the endpoint raises [HTTPException(400)]);
    otherwise it answers 200 with a body whose ["type"] field is
    ["premium"] when [user_id >= 1000] and ["standard"] when
    [user_id < 1000]. *)
Theorem get_user_status_and_type :
  forall user_id : Z,
    let r := result_of (route (App.get_user (F := F) user_id) tt) in
    (user_id <= 0 ->
       result_of (App.get_user (F := F) user_id tt) =
         Raise (HTTPException 400 "User ID must be positive") /\
       response_status r = Some 400) /\
    (0 < user_id ->
       response_status r = Some 200 /\
       (1000 <= user_id -> response_field r "type" = Some (PStr "premium")) /\
       (user_id < 1000 -> response_field r "type" = Some (PStr "standard"))).
Proof.
  intros user_id r. subst r.
  unfold route, App.get_user, with_span, bind, emit, raise, ret. simpl.
  split.
  - intros Hneg.
    destruct (Z.leb_spec user_id 0) as [_ | Hpos]; [| lia].
    simpl. split; reflexivity.
  - intros Hpos.
    destruct (Z.leb_spec user_id 0) as [Hneg | _]; [lia |].
    simpl. split; [reflexivity |]. split; intros Hcmp.
    + destruct (Z.leb_spec 1000 user_id); [reflexivity | lia].
    + destruct (Z.leb_spec 1000 user_id); [lia | reflexivity].
Qed.

(** C9. When [GET /users/{user_id}] is called with [user_id <= 0] and
    fails with 400, [user_lookups_counter] has still been incremented
    once, with [user_type] ["standard"]; the increment comes before the
    validation and stays in the trace of the failed call. *)
Theorem failed_lookup_is_counted :
  forall user_id : Z,
    user_id <= 0 ->
    let run := App.get_user (F := F) user_id tt in
    result_of run = Raise (HTTPException 400 "User ID must be positive") /\
    counter_adds "user_lookups_total" (trace_of run) =
      [(1, [("user_type", PStr "standard")])] /\
    counter_adds "user_lookups_total"
      (trace_of (route (App.get_user (F := F) user_id) tt)) =
      [(1, [("user_type", PStr "standard")])] /\
    exists (i : Instrument) (before after : list (Event F)),
      name i = "user_lookups_total" /\
      trace_of run =
        before ++ CounterAdd i 1 [("user_type", PStr "standard")] :: after /\
      In (SpanSetStatusError "get_user" "Invalid user ID") after.
Proof.
  intros user_id Hneg run. subst run.
  unfold route, App.get_user, with_span, bind, emit, raise, ret. simpl.
  destruct (Z.leb_spec user_id 0) as [_ | Hpos]; [| lia].
  destruct (Z.ltb_spec user_id 1000) as [_ | Hbig]; [| lia].
  simpl. repeat split.
  eexists. exists [SpanStart "get_user";
                   SpanSetAttribute "get_user" "user.id" (PInt user_id)].
  eexists. split; [| split].
  2: { simpl. reflexivity. }
  - reflexivity.
  - simpl. right. left. reflexivity.
Qed.

(** C6. [GET /error] raises an HTTP error with status 500 and
    [GET /health] answers 200 with ["status"] ["healthy"]; neither
    depends on any input. *)
Theorem error_and_health_endpoints :
  result_of (App.error_endpoint (F := F) tt) =
    Raise (HTTPException 500 "Demo error for testing metrics") /\
  response_status (result_of (route (App.error_endpoint (F := F)) tt)) =
    Some 500 /\
  response_status (result_of (route (App.health (F := F)) tt)) = Some 200 /\
  response_field (result_of (route (App.health (F := F)) tt)) "status" =
    Some (PStr "healthy").
Proof.
  repeat split.
Qed.

(** C4, as amended.  For every request body whose amount, when present,
    is a finite number (an int, a bool or a float other than the infinities
    and NaN), [POST /orders] answers 200 with ["status"] ["created"] and
    the amount echoed back, tags the order metric ["large"] exactly when
    the amount is greater than 100 and ["small"] otherwise, and takes the
    amount to be 0 when the body has no ["amount"] key. *)
Theorem create_order_numeric_amount :
  forall (now : F) (order : list (string * PyVal F)),
    let amount := dict_get order "amount" (PInt 0) in
    is_finite_number amount = true ->
    let run := App.create_order now order tt in
    let r := result_of (route (App.create_order now order) tt) in
    response_status r = Some 200 /\
    response_field r "status" = Some (PStr "created") /\
    response_field r "amount" = Some amount /\
    (exceeds amount 100 ->
       counter_adds "orders_created_total" (trace_of run) =
         [(1, [("order_size", PStr "large"); ("currency", PStr "USD")])]) /\
    (~ exceeds amount 100 ->
       counter_adds "orders_created_total" (trace_of run) =
         [(1, [("order_size", PStr "small"); ("currency", PStr "USD")])]) /\
    (dict_lookup order "amount" = None -> amount = PInt 0).
Proof.
  intros now order amount Hnum run r.
  assert (Hmissing : dict_lookup order "amount" = None -> amount = PInt 0).
  { intros Hnone. subst amount. unfold dict_get. rewrite Hnone. reflexivity. }
  subst run r.
  unfold route, App.create_order, with_span, bind, emit, ret.
  fold amount.
  destruct amount as [ | b | z | f | s | l | d ]; try discriminate Hnum;
    simpl in Hnum; simpl; rewrite ?Hnum; simpl;
    repeat split; try assumption; intros Hcmp; simpl in Hcmp.
  - destruct b; simpl in Hcmp; lia.
  - destruct b; reflexivity.
  - destruct (Z.ltb_spec 100 z); [reflexivity | lia].
  - destruct (Z.ltb_spec 100 z); [lia | reflexivity].
  - rewrite Hcmp. reflexivity.
  - destruct (fgt_int f 100); [exfalso; apply Hcmp; reflexivity | reflexivity].
Qed.

(** C7. [GET /random] draws from a list of four outcomes of which exactly
    three are successes: each index of the list gives either the success
    body or [HTTPException(500)], and under a uniform draw of the index
    the endpoint succeeds with probability 75% and fails with 500 with
    probability 25%. *)
Theorem random_endpoint_distribution :
  forall value : Z,
    List.length App.random_outcomes = 4%nat /\
    List.length (filter (fun success : bool => success) App.random_outcomes)
      = 3%nat /\
    Forall
      (fun index : nat =>
         (nth_error App.random_outcomes index = Some true /\
          result_of (App.random_endpoint (F := F) index value tt) =
            Return (PDict [("result", PStr "success"); ("value", PInt value)]))
         \/
         (nth_error App.random_outcomes index = Some false /\
          result_of (App.random_endpoint (F := F) index value tt) =
            Raise (HTTPException 500 "Random failure")))
      (seq 0 (List.length App.random_outcomes)) /\
    (probability
       (fun index =>
          returns (result_of (App.random_endpoint (F := F) index value tt)))
       (List.length App.random_outcomes) == 75 # 100)%Q /\
    (probability
       (fun index =>
          raises_http 500
            (result_of (App.random_endpoint (F := F) index value tt)))
       (List.length App.random_outcomes) == 25 # 100)%Q.
Proof.
  intros value. split; [reflexivity |]. split; [reflexivity |].
  split.
  - simpl.
    constructor; [left; split; reflexivity |].
    constructor; [left; split; reflexivity |].
    constructor; [left; split; reflexivity |].
    constructor; [right; split; reflexivity |].
    constructor.
  - split; reflexivity.
Qed.

End EndpointProperties.

(** ** The middleware *)

Section MiddlewareProperties.

Context {F : Type} `{PyFloat F}.

(** C5. The middleware hands the outcome of the downstream handler chain
    to its caller unchanged: the response the handler returned, with its
    status and body, or the exception it raised. *)
Theorem middleware_propagates_outcome :
  forall (start_time end_time : F) (request : Request)
         (call_next : Request -> Eff F unit (Response F)) (g : Globals),
    result_of
      (App.observability_middleware start_time end_time request call_next g)
    = result_of (call_next request tt).
Proof.
  intros. rewrite observability_middleware_summary. unfold run_summary.
  destruct (call_next request tt) as [[[response | e] u] t]; reflexivity.
Qed.

(** C8. [metrics_middleware] of [src/main.py] and
    [observability_middleware] of [src/app/middleware.py] agree on every
    input: same result, same counters afterwards, and the same events
    (metric values, instruments, tags, span and log records) in the same
    order. *)
Theorem middlewares_equivalent :
  forall (start_time end_time : F) (request : Request)
         (call_next : Request -> Eff F unit (Response F)) (g : Globals),
    Main.metrics_middleware start_time end_time request call_next g =
    App.observability_middleware start_time end_time request call_next g.
Proof.
  intros.
  rewrite metrics_middleware_summary, observability_middleware_summary.
  reflexivity.
Qed.

(** The counters after a run, by what the handler chain did. *)
Lemma run_middleware_state :
  forall (r : Run F) (g : Globals),
    state_of (run_middleware r g) =
    match result_of (downstream r) with
    | Return response => on_response (status_code response) (on_enter g)
    | Raise _ => on_enter g
    end.
Proof.
  intros. unfold run_middleware. rewrite observability_middleware_summary.
  unfold run_summary, downstream.
  destruct (run_call_next r (run_request r) tt) as [[[response | e] u] t];
    reflexivity.
Qed.

Lemma total_requests_after_run :
  forall (r : Run F) (g : Globals),
    total_requests (state_of (run_middleware r g)) = total_requests g + 1.
Proof.
  intros. rewrite run_middleware_state.
  destruct (result_of (downstream r)) as [response | e]; [| reflexivity].
  unfold on_response. destruct (400 <=? status_code response); reflexivity.
Qed.

Lemma total_errors_after_run :
  forall (r : Run F) (g : Globals),
    total_errors (state_of (run_middleware r g)) =
    total_errors g + (if is_error r then 1 else 0).
Proof.
  intros. rewrite run_middleware_state. unfold is_error.
  destruct (result_of (downstream r)) as [response | e].
  - unfold on_response. destruct (400 <=? status_code response); simpl; lia.
  - simpl. lia.
Qed.

(** On the response path the middleware leaves [active_requests] where it
    found it, having published the incremented and then the restored
    value. *)
Lemma active_requests_after_response :
  forall (r : Run F) (g : Globals) (response : Response F),
    result_of (downstream r) = Return response ->
    active_requests (state_of (run_middleware r g)) = active_requests g /\
    gauge_sets "active_requests_current"
      (enter_trace (F := F) (run_request r) (on_enter g)) =
      [PInt (active_requests g + 1)] /\
    gauge_sets "active_requests_current"
      (response_trace (run_start r) (run_end r) (run_request r) response
         (state_of (run_middleware r g))) = [PInt (active_requests g)].
Proof.
  intros r g response Hret. rewrite run_middleware_state, Hret.
  unfold on_response, response_trace.
  destruct (400 <=? status_code response); simpl;
    replace (active_requests g + 1 - 1) with (active_requests g) by lia;
    repeat split.
Qed.

(** When the handler chain raises, the decrement is not reached. *)
Lemma active_requests_after_raise :
  forall (r : Run F) (g : Globals) (e : Exn),
    result_of (downstream r) = Raise e ->
    active_requests (state_of (run_middleware r g)) = active_requests g + 1.
Proof.
  intros r g e Hraise. rewrite run_middleware_state, Hraise. reflexivity.
Qed.

Lemma serve_cons :
  forall (r : Run F) (rest : list (Run F)) (g : Globals),
    serve (r :: rest) g =
    (fst (serve rest (state_of (run_middleware r g))),
     trace_of (run_middleware r g) ++
     snd (serve rest (state_of (run_middleware r g)))).
Proof.
  intros. simpl.
  destruct (run_middleware r g) as [[res g1] t1].
  unfold state_of, trace_of. cbn [fst snd].
  destruct (serve rest g1) as [g2 t2]. reflexivity.
Qed.

Lemma count_errors_cons :
  forall (r : Run F) (rest : list (Run F)),
    count_errors (r :: rest) =
    (if is_error r then 1 else 0) + count_errors rest.
Proof.
  intros. unfold count_errors. simpl.
  destruct (is_error r); simpl List.length; lia.
Qed.

(** After any sequence of requests, whatever their outcomes,
    [total_requests] has grown by their number and [total_errors] by the
    number of error responses. *)
Lemma serve_counters :
  forall (runs : list (Run F)) (g : Globals),
    total_requests (fst (serve runs g)) =
      total_requests g + Z.of_nat (List.length runs) /\
    total_errors (fst (serve runs g)) = total_errors g + count_errors runs.
Proof.
  induction runs as [| r rest IH]; intros g.
  - simpl. unfold count_errors. simpl. lia.
  - rewrite serve_cons. cbn [fst].
    destruct (IH (state_of (run_middleware r g))) as [IHr IHe].
    rewrite IHr, IHe, total_requests_after_run, total_errors_after_run.
    rewrite count_errors_cons. simpl List.length. lia.
Qed.

Lemma active_requests_after_run :
  forall (r : Run F) (g : Globals),
    active_requests (state_of (run_middleware r g)) =
    active_requests g + (if completes r then 0 else 1).
Proof.
  intros. rewrite run_middleware_state. unfold completes.
  destruct (result_of (downstream r)) as [response | e].
  - unfold on_response. destruct (400 <=? status_code response); simpl; lia.
  - simpl. lia.
Qed.

(** After any sequence of requests, [active_requests] exceeds its starting
    value by the number of requests whose handler chain raised. *)
Lemma serve_active_requests :
  forall (runs : list (Run F)) (g : Globals),
    active_requests (fst (serve runs g)) =
    active_requests g +
    Z.of_nat (List.length (filter (fun r => negb (completes r)) runs)).
Proof.
  induction runs as [| r rest IH]; intros g.
  - simpl. lia.
  - rewrite serve_cons. cbn [fst].
    rewrite IH, active_requests_after_run. simpl filter.
    destruct (completes r); simpl negb; cbv iota; simpl List.length; lia.
Qed.

Lemma gauge_sets_app :
  forall (instrument : string) (t1 t2 : list (Event F)),
    gauge_sets instrument (t1 ++ t2) =
    gauge_sets instrument t1 ++ gauge_sets instrument t2.
Proof.
  intros. unfold gauge_sets. apply flat_map_app.
Qed.

Lemma response_trace_error_rate :
  forall (start_time end_time : F) (request : Request)
         (response : Response F) (g : Globals),
    gauge_sets "error_rate_current"
      (response_trace start_time end_time request response g) =
    [error_rate_value g].
Proof.
  intros. unfold response_trace.
  destruct (400 <=? status_code response); reflexivity.
Qed.

(** A run that ends with a response publishes the error rate of the
    counters it leaves, after anything the handler chain published. *)
Lemma run_publishes_error_rate :
  forall (r : Run F) (g : Globals),
    completes r = true ->
    exists earlier : list (PyVal F),
      gauge_sets "error_rate_current" (trace_of (run_middleware r g)) =
      earlier ++ [error_rate_value (state_of (run_middleware r g))].
Proof.
  intros r g Hc. unfold completes, downstream in Hc.
  unfold run_middleware. rewrite observability_middleware_summary.
  unfold run_summary.
  destruct (run_call_next r (run_request r) tt) as [[[response | e] u] t];
    [| discriminate Hc].
  unfold trace_of, state_of. cbn [fst snd].
  rewrite !gauge_sets_app, response_trace_error_rate.
  eexists. rewrite app_assoc. reflexivity.
Qed.

Lemma serve_publishes_error_rate :
  forall (runs : list (Run F)) (g : Globals),
    runs <> [] ->
    Forall (fun r => completes r = true) runs ->
    exists earlier : list (PyVal F),
      gauge_sets "error_rate_current" (snd (serve runs g)) =
      earlier ++ [error_rate_value (fst (serve runs g))].
Proof.
  induction runs as [| r rest IH]; intros g Hne Hall; [congruence |].
  inversion Hall as [| r' rest' Hr Hrest]; subst.
  rewrite serve_cons. cbn [fst snd]. rewrite gauge_sets_app.
  destruct rest as [| r2 rest2].
  - destruct (run_publishes_error_rate r g Hr) as [earlier Hearlier].
    exists earlier. simpl. rewrite app_nil_r. exact Hearlier.
  - destruct (IH (state_of (run_middleware r g))) as [earlier Hearlier];
      [discriminate | assumption |].
    rewrite Hearlier. eexists. rewrite app_assoc. reflexivity.
Qed.

(** C2. After any sequence of [N] requests that completed through the
    middleware, [E] of them with a response of status code >= 400, the
    counters hold [N] and [E] and the value last published to the
    error-rate gauge is [E / N * 100]; with no request nothing has been
    published and the expression of line 55 evaluates to 0. *)
Theorem error_rate_after_requests :
  forall runs : list (Run F),
    Forall (fun r => completes r = true) runs ->
    let N := Z.of_nat (List.length runs) in
    let E := count_errors runs in
    let g := fst (serve runs initial_globals) in
    let published :=
      gauge_sets "error_rate_current" (snd (serve runs initial_globals)) in
    total_requests g = N /\
    total_errors g = E /\
    (runs <> [] ->
       exists earlier : list (PyVal F),
         published = earlier ++ [PFloat (fmul_int (truediv E N) 100)]) /\
    (runs = [] -> published = [] /\ error_rate_value (F := F) g = PInt 0).
Proof.
  intros runs Hall N E g published.
  destruct (serve_counters runs initial_globals) as [Hn He].
  simpl in Hn, He. rewrite Z.add_0_l in Hn, He. fold g N in Hn. fold g E in He.
  split; [exact Hn |]. split; [exact He |]. split.
  - intros Hne.
    destruct (serve_publishes_error_rate initial_globals Hne Hall)
      as [earlier Hearlier].
    exists earlier. subst published. rewrite Hearlier. fold g.
    unfold error_rate_value. rewrite Hn, He.
    destruct (Z.ltb_spec 0 N) as [_ | Hzero]; [reflexivity |].
    destruct runs; [congruence | simpl in N; lia].
  - intros Hnil. subst runs. split; reflexivity.
Qed.

End MiddlewareProperties.

(** ** Bounds on the counters and on the published error rate *)

Section ErrorRateRange.

Context {F : Type} `{PyFloatOrder F}.

Lemma count_errors_bounds :
  forall runs : list (Run F),
    0 <= count_errors runs <= Z.of_nat (List.length runs).
Proof.
  intros runs. unfold count_errors.
  pose proof (filter_length_le is_error runs). lia.
Qed.

(** Every state reached from the initial counters by serving requests. *)
Lemma reachable_counters :
  forall runs : list (Run F),
    let g := fst (serve runs initial_globals) in
    0 <= total_errors g <= total_requests g.
Proof.
  intros runs g.
  destruct (serve_counters runs initial_globals) as [Hn He].
  fold g in Hn, He. simpl in Hn, He. rewrite Z.add_0_l in Hn, He.
  pose proof (count_errors_bounds runs). lia.
Qed.

Lemma error_rate_in_range :
  forall g : Globals,
    0 <= total_errors g <= total_requests g ->
    1 <= total_requests g ->
    let x := fmul_int (truediv (total_errors g) (total_requests g)) 100 in
    error_rate_value g = PFloat x /\
    fle (float_of_int 0) x /\ fle x (float_of_int 100).
Proof.
  intros g Hinv Hpos x. split.
  - unfold error_rate_value.
    destruct (Z.ltb_spec 0 (total_requests g)); [reflexivity | lia].
  - assert (Hlt : 0 < total_requests g) by lia.
    destruct (truediv_unit_interval Hinv Hlt) as [Hlo Hhi].
    apply fmul_int_100_interval; assumption.
Qed.

(** C10. From every state the counters can reach, a run of the middleware
    keeps [0 <= total_errors <= total_requests]; [total_requests >= 1]
    where the error rate is computed, so the value the middleware
    publishes is the quotient, never the fallback 0 of the
    zero-denominator branch, and it lies in [0, 100].  That value is the
    only one a run sets on the error-rate gauge: the events before the
    handler chain set none, and a run whose handler chain raises sets
    none at all. *)
Theorem error_rate_within_bounds :
  forall (runs : list (Run F)) (r : Run F),
    let g := fst (serve runs initial_globals) in
    let g' := state_of (run_middleware r g) in
    0 <= total_errors g <= total_requests g /\
    0 <= total_errors g' <= total_requests g' /\
    1 <= total_requests g' /\
    (forall response : Response F,
      result_of (downstream r) = Return response ->
      trace_of (run_middleware r g) =
        enter_trace (run_request r) (on_enter g) ++
        trace_of (downstream r) ++
        response_trace (run_start r) (run_end r) (run_request r) response g' /\
      gauge_sets "error_rate_current"
        (enter_trace (F := F) (run_request r) (on_enter g)) = [] /\
      exists x : F,
        gauge_sets "error_rate_current"
          (response_trace (run_start r) (run_end r) (run_request r)
             response g') = [PFloat x] /\
        x = fmul_int (truediv (total_errors g') (total_requests g')) 100 /\
        fle (float_of_int 0) x /\ fle x (float_of_int 100)) /\
    (forall e : Exn,
      result_of (downstream r) = Raise e ->
      trace_of (run_middleware r g) =
        enter_trace (run_request r) (on_enter g) ++
        trace_of (downstream r) ++ raise_trace e /\
      gauge_sets "error_rate_current"
        (enter_trace (F := F) (run_request r) (on_enter g)) = [] /\
      gauge_sets "error_rate_current" (raise_trace (F := F) e) = []).
Proof.
  intros runs r g g'.
  pose proof (reachable_counters runs) as Hg. cbv zeta in Hg. fold g in Hg.
  assert (Hr : total_requests g' = total_requests g + 1)
    by apply total_requests_after_run.
  assert (He : total_errors g' =
               total_errors g + (if is_error r then 1 else 0))
    by apply total_errors_after_run.
  assert (Hg' : 0 <= total_errors g' <= total_requests g')
    by (destruct (is_error r); lia).
  split; [exact Hg |]. split; [exact Hg' |]. split; [lia |].
  split.
  - intros response Hret. split; [| split].
    + subst g'. unfold run_middleware.
      rewrite observability_middleware_summary.
      unfold run_summary, downstream, result_of in *.
      destruct (run_call_next r (run_request r) tt) as [[res u] t].
      simpl in Hret. subst res. reflexivity.
    + reflexivity.
    + destruct (error_rate_in_range g' Hg') as (Hval & Hlo & Hhi); [lia |].
      eexists.
      split; [| split; [reflexivity | split; [exact Hlo | exact Hhi]]].
      rewrite response_trace_error_rate, Hval. reflexivity.
  - intros e Hraise. split; [| split; reflexivity].
    unfold run_middleware. rewrite observability_middleware_summary.
    unfold run_summary, downstream, result_of in *.
    destruct (run_call_next r (run_request r) tt) as [[res u] t].
    simpl in Hraise. subst res. reflexivity.
Qed.

End ErrorRateRange.

(** ** Interleaved requests *)

Lemma step_preserves_invariant :
  forall s s' : System,
    system_invariant s -> step s s' -> system_invariant s'.
Proof.
  intros s s' (He & Hr & Hf & Ha) Hstep.
  destruct Hstep as [s | s sc Hpos | s Hpos];
    unfold system_invariant, on_response, on_enter; simpl.
  - lia.
  - destruct (400 <=? sc); simpl; lia.
  - lia.
Qed.

(** Under any interleaving, [active_requests] never goes below the number
    of suspended requests, and the counters stay ordered. *)
Lemma reachable_invariant :
  forall s : System, reachable s -> system_invariant s.
Proof.
  induction 1 as [| s s' Hreach IH Hstep].
  - unfold system_invariant. simpl. lia.
  - exact (step_preserves_invariant IH Hstep).
Qed.

Lemma reachable_active_requests_nonneg :
  forall s : System, reachable s -> 0 <= active_requests (counters s).
Proof.
  intros s Hreach. destruct (reachable_invariant Hreach) as (_ & _ & Hf & Ha).
  lia.
Qed.

(** Whenever a request resumes with a response, the denominator of the
    error rate is at least 1 and bounds the numerator. *)
Lemma response_step_counters :
  forall (s : System) (sc : Z),
    reachable s -> 0 < in_flight s ->
    let g := on_response sc (counters s) in
    1 <= total_requests g /\ 0 <= total_errors g <= total_requests g.
Proof.
  intros s sc Hreach Hpos g.
  destruct (reachable_invariant Hreach) as (He & Hr & Hf & Ha).
  subst g. unfold on_response.
  destruct (400 <=? sc); simpl; lia.
Qed.

(** ** Exact arithmetic satisfies the order facts *)

Import ExactQ.
Import ExtendedQ.

#[export] Instance PyFloatOrder_Q : PyFloatOrder Q.
Proof.
  split.
  - intros a b Hab Hb.
    change (inject_Z 0 <= inject_Z a / inject_Z b /\
            inject_Z a / inject_Z b <= inject_Z 1)%Q.
    assert (Hbq : (inject_Z 0 < inject_Z b)%Q) by (rewrite <- Zlt_Qlt; exact Hb).
    split.
    + apply Qle_shift_div_l; [exact Hbq |].
      rewrite <- inject_Z_mult, <- Zle_Qle. lia.
    + apply Qle_shift_div_r; [exact Hbq |].
      rewrite <- inject_Z_mult, <- Zle_Qle. lia.
  - intros x Hlo Hhi.
    change (inject_Z 0 <= x)%Q in Hlo. change (x <= inject_Z 1)%Q in Hhi.
    change (inject_Z 0 <= x * inject_Z 100 /\
            x * inject_Z 100 <= inject_Z 100)%Q.
    split.
    + apply Qmult_le_0_compat; [exact Hlo | discriminate].
    + apply Qle_trans with (inject_Z 1 * inject_Z 100)%Q.
      * apply Qmult_le_compat_r; [exact Hhi | discriminate].
      * rewrite <- inject_Z_mult, <- Zle_Qle. lia.
Qed.

(** ** Concrete instances *)

(** C1, at the failing input.  [POST /orders] with body
    [{"amount": "abc"}]: [create_order] raises [TypeError], [call_next]
    raises it to the middleware, and the middleware leaves
    [active_requests] at 1 instead of the 0 it started from: the gauge was
    set once, to 1, and the decrement was never reached. *)
Theorem active_requests_not_restored_on_raise :
  let run := run_middleware Examples.text_amount_order initial_globals in
  result_of run =
    Raise (TypeError "'>' not supported between instances of 'str' and 'int'")
  /\ active_requests initial_globals = 0
  /\ active_requests (state_of run) = 1
  /\ gauge_sets "active_requests_current" (trace_of run) = [PInt 1].
Proof.
  vm_compute. repeat split.
Qed.

(** C4, as stated, fails: for the body [{"amount": "abc"}] the endpoint
    raises [TypeError] at the comparison [amount > 100]; there is no
    response, so no body with ["status"] ["created"], and no order metric
    is recorded. *)
Lemma create_order_text_amount_raises :
  let order : list (string * PyVal Q) := [("amount", PStr "abc")] in
  let run := route (App.create_order 21%Q order) tt in
  result_of run =
    Raise (TypeError "'>' not supported between instances of 'str' and 'int'")
  /\ response_field (result_of run) "status" <> Some (PStr "created")
  /\ counter_adds "orders_created_total" (trace_of run) = [].
Proof.
  vm_compute. repeat split. discriminate.
Qed.

(** [POST /orders] with body [{"amount": 1e400}], which Python reads as
    the float infinity: the endpoint returns, rendering the response
    raises [ValueError], and the middleware leaves [active_requests]
    at 1. *)
Example create_order_infinite_amount :
  let order : list (string * PyVal XQ) := [("amount", PFloat PosInf)] in
  let now := Finite 21 in
  let endpoint := App.create_order now order in
  returns (result_of (endpoint tt)) = true /\
  counter_adds "orders_created_total" (trace_of (endpoint tt)) =
    [(1, [("order_size", PStr "large"); ("currency", PStr "USD")])] /\
  result_of (route endpoint tt) =
    Raise (ValueError "Out of range float values are not JSON compliant") /\
  active_requests
    (state_of
       (App.observability_middleware (Finite 20) now Examples.orders_request
          (fun _ => route endpoint) initial_globals)) = 1.
Proof.
  vm_compute. repeat split.
Qed.

Lemma get_user_status_and_type_witness :
  0 < 1500 /\ 1000 <= 1500 /\
  response_field (result_of (route (App.get_user (F := Q) 1500) tt)) "type"
    = Some (PStr "premium").
Proof.
  split; [lia |]. split; [lia |].
  pose proof (get_user_status_and_type (F := Q) 1500) as Hspec.
  cbv zeta in Hspec. destruct Hspec as [_ Hpos].
  destruct Hpos as (_ & Hpremium & _); [lia |].
  apply Hpremium. lia.
Defined.

Lemma failed_lookup_is_counted_witness :
  -5 <= 0 /\
  counter_adds "user_lookups_total"
    (trace_of (App.get_user (F := Q) (-5) tt)) =
    [(1, [("user_type", PStr "standard")])].
Proof.
  split; [lia |].
  pose proof (failed_lookup_is_counted (F := Q) (user_id := -5)) as Hspec.
  cbv zeta in Hspec. destruct Hspec as (_ & Hcount & _); [lia |].
  exact Hcount.
Defined.

Lemma create_order_numeric_amount_witness :
  let order : list (string * PyVal Q) := [("amount", PInt 150)] in
  is_finite_number (dict_get order "amount" (PInt 0)) = true /\
  response_field (result_of (route (App.create_order 21%Q order) tt)) "status"
    = Some (PStr "created") /\
  counter_adds "orders_created_total"
    (trace_of (App.create_order 21%Q order tt)) =
    [(1, [("order_size", PStr "large"); ("currency", PStr "USD")])].
Proof.
  intros order. split; [reflexivity |].
  pose proof (create_order_numeric_amount (F := Q) 21%Q order) as Hspec.
  cbv zeta in Hspec.
  destruct Hspec as (_ & Hstatus & _ & Hlarge & _); [reflexivity |].
  split; [exact Hstatus |].
  apply Hlarge. simpl. lia.
Defined.

Lemma error_rate_after_requests_witness :
  Forall (fun r : Run Q => completes r = true) Examples.two_lookups /\
  exists earlier : list (PyVal Q),
    gauge_sets "error_rate_current"
      (snd (serve Examples.two_lookups initial_globals)) =
    earlier ++ [PFloat (fmul_int (truediv 1 2) 100)].
Proof.
  assert (Hall : Forall (fun r : Run Q => completes r = true)
                   Examples.two_lookups)
    by (repeat constructor).
  split; [exact Hall |].
  pose proof (error_rate_after_requests Hall) as Hspec.
  cbv zeta in Hspec. destruct Hspec as (_ & _ & Hpublished & _).
  apply Hpublished. discriminate.
Defined.

Lemma error_rate_within_bounds_witness :
  let r := Examples.failed_lookup in
  let response : Response Q :=
    {| status_code := 400;
       body := PDict [("detail", PStr "User ID must be positive")] |} in
  let g := state_of (run_middleware r initial_globals) in
  result_of (downstream r) = Return response /\
  1 <= total_requests g /\
  exists x : Q,
    gauge_sets "error_rate_current"
      (response_trace (run_start r) (run_end r) (run_request r) response g)
      = [PFloat x] /\
    (0 <= x)%Q /\ (x <= 100)%Q.
Proof.
  intros r response g.
  pose proof (error_rate_within_bounds (F := Q) [] r) as Hspec.
  cbv zeta in Hspec. destruct Hspec as (_ & _ & Hpos & Hresponse & _).
  assert (Hret : result_of (downstream r) = Return response) by reflexivity.
  destruct (Hresponse response Hret) as (_ & _ & x & Hpub & _ & Hlo & Hhi).
  split; [exact Hret |]. split; [exact Hpos |].
  exists x. split; [exact Hpub |]. split; [exact Hlo | exact Hhi].
Defined.

(** The cases the specification names. *)

Example get_user_5 :
  response_status (result_of (route (App.get_user (F := Q) 5) tt)) = Some 200 /\
  response_field (result_of (route (App.get_user (F := Q) 5) tt)) "type"
    = Some (PStr "standard").
Proof. split; reflexivity. Qed.

Example get_user_0_and_minus_5 :
  response_status (result_of (route (App.get_user (F := Q) 0) tt)) = Some 400 /\
  response_status (result_of (route (App.get_user (F := Q) (-5)) tt))
    = Some 400.
Proof. split; reflexivity. Qed.

Example create_order_50_is_small :
  counter_adds "orders_created_total"
    (trace_of (App.create_order 21%Q [("amount", PInt 50)] tt)) =
  [(1, [("order_size", PStr "small"); ("currency", PStr "USD")])].
Proof. reflexivity. Qed.

Example create_order_without_amount :
  response_field (result_of (route (App.create_order 21%Q []) tt)) "amount"
    = Some (PInt 0).
Proof. reflexivity. Qed.

Example two_lookups_error_rate :
  fst (serve Examples.two_lookups initial_globals) =
    {| total_requests := 2; total_errors := 1; active_requests := 0 |} /\
  gauge_sets "error_rate_current"
    (snd (serve Examples.two_lookups initial_globals)) =
    [PFloat 0%Q; PFloat (100 # 2)%Q].
Proof. vm_compute. split; reflexivity. Qed.

(** * Further properties *)

(** ** Span discipline *)

Section SpanDiscipline.

Context {F : Type} `{PyFloat F}.

Lemma span_stack_app :
  forall (t1 t2 : list (Event F)) (opened : list string),
    span_stack opened (t1 ++ t2) =
    match span_stack opened t1 with
    | Some st => span_stack st t2
    | None => None
    end.
Proof.
  induction t1 as [| e t1 IH]; intros t2 opened; [reflexivity |].
  destruct e; simpl; try apply IH;
    destruct opened as [| top below]; try reflexivity;
    destruct (String.eqb top span); try reflexivity; apply IH.
Qed.

Lemma spans_ok_ret :
  forall (S A : Type) (top : list string) (a : A),
    spans_ok top (ret (F := F) (S := S) a).
Proof. intros S A top a s base. reflexivity. Qed.

Lemma spans_ok_raise :
  forall (S A : Type) (top : list string) (e : Exn),
    spans_ok top (raise (F := F) (S := S) (A := A) e).
Proof. intros S A top e s base. reflexivity. Qed.

Lemma spans_ok_modify :
  forall (S : Type) (top : list string) (f : S -> S),
    spans_ok top (modify (F := F) f).
Proof. intros S top f s base. reflexivity. Qed.

Lemma spans_ok_get :
  forall (S : Type) (top : list string), spans_ok top (get (F := F) (S := S)).
Proof. intros S top s base. reflexivity. Qed.

Lemma spans_ok_emit :
  forall (S : Type) (top : list string) (e : Event F),
    (forall base, span_stack (top ++ base) [e] = Some (top ++ base)) ->
    spans_ok top (emit (S := S) e).
Proof. intros S top e He s base. apply He. Qed.

Lemma spans_ok_bind :
  forall (S A B : Type) (top : list string)
         (m : Eff F S A) (k : A -> Eff F S B),
    spans_ok top m -> (forall a, spans_ok top (k a)) ->
    spans_ok top (bind m k).
Proof.
  intros S A B top m k Hm Hk s base. unfold bind.
  specialize (Hm s base). unfold trace_of in *.
  destruct (m s) as [[[a | e] s1] t1]; simpl in *; [| exact Hm].
  specialize (Hk a s1 base).
  destruct (k a s1) as [[r s2] t2]. simpl in *.
  rewrite span_stack_app, Hm. exact Hk.
Qed.

(** Ordinary code runs equally well under enclosing spans. *)
Lemma spans_ok_weaken :
  forall (S A : Type) (top : list string) (m : Eff F S A),
    spans_ok [] m -> spans_ok top m.
Proof. intros S A top m Hm s base. apply (Hm s (top ++ base)). Qed.

(** A [with] block closes its span on both exits. *)
Lemma spans_ok_with_span :
  forall (S A : Type) (top : list string) (span : string) (body : Eff F S A),
    spans_ok [span] body -> spans_ok top (with_span span body).
Proof.
  intros S A top span body Hbody s base. unfold with_span.
  specialize (Hbody s (top ++ base)). unfold trace_of in *.
  destruct (body s) as [[[a | e] s1] t]; simpl in *;
    rewrite span_stack_app, Hbody; simpl;
    rewrite String.eqb_refl; reflexivity.
Qed.

Lemma spans_ok_await :
  forall (S A : Type) (top : list string) (h : Eff F unit A),
    spans_ok [] h -> spans_ok top (await (S := S) h).
Proof.
  intros S A top h Hh s base. unfold await.
  specialize (Hh tt (top ++ base)). unfold trace_of in *.
  destruct (h tt) as [[r u] t]. exact Hh.
Qed.

Lemma spans_ok_getitem :
  forall (S V : Type) (top : list string) (d : list (string * V))
         (key : string),
    spans_ok top (getitem (F := F) (S := S) d key).
Proof.
  intros S V top d key s base. unfold getitem.
  destruct (dict_lookup d key); reflexivity.
Qed.

Lemma spans_ok_list_item :
  forall (S A : Type) (top : list string) (seq : list A) (index : nat),
    spans_ok top (list_item (F := F) (S := S) seq index).
Proof.
  intros S A top seq index s base. unfold list_item.
  destruct (nth_error seq index); reflexivity.
Qed.

Lemma spans_ok_random_choice :
  forall (S A : Type) (top : list string) (seq : list A) (index : nat),
    spans_ok top (random_choice (F := F) (S := S) seq index).
Proof.
  intros S A top seq index s base. unfold random_choice.
  destruct (nth_error seq index); reflexivity.
Qed.

Lemma spans_ok_py_gt_int :
  forall (S : Type) (top : list string) (v : PyVal F) (k : Z),
    spans_ok top (py_gt_int (S := S) v k).
Proof. intros S top v k s base. destruct v; reflexivity. Qed.

Lemma spans_ok_for_each :
  forall (S A : Type) (top : list string) (xs : list A)
         (body : A -> Eff F S unit),
    (forall x, spans_ok top (body x)) -> spans_ok top (for_each xs body).
Proof.
  intros S A top xs body Hbody. induction xs as [| x rest IH]; simpl.
  - apply spans_ok_ret.
  - apply spans_ok_bind; [apply Hbody | intros _; exact IH].
Qed.

Lemma spans_ok_route :
  forall (top : list string) (endpoint : Eff F unit (PyVal F)),
    spans_ok top endpoint -> spans_ok top (route endpoint).
Proof.
  intros top endpoint Hep s base. unfold route.
  specialize (Hep s base). unfold trace_of in *.
  destruct (endpoint s) as [[[b | e] u] t].
  - destruct (json_compliant b); exact Hep.
  - destruct e; exact Hep.
Qed.

End SpanDiscipline.

(** Walks through a monadic program, one construct at a time. *)
Ltac spans_step :=
  lazymatch goal with
  | |- spans_ok _ (bind _ _) => apply spans_ok_bind; [| intros ?]
  | |- spans_ok _ (ret _) => apply spans_ok_ret
  | |- spans_ok _ (raise _) => apply spans_ok_raise
  | |- spans_ok _ (modify _) => apply spans_ok_modify
  | |- spans_ok _ get => apply spans_ok_get
  | |- spans_ok _ (emit _) =>
      apply spans_ok_emit; intros ?; simpl;
      rewrite ?String.eqb_refl; reflexivity
  | |- spans_ok _ (with_span _ _) => apply spans_ok_with_span
  | |- spans_ok _ (getitem _ _) => apply spans_ok_getitem
  | |- spans_ok _ (list_item _ _) => apply spans_ok_list_item
  | |- spans_ok _ (random_choice _ _) => apply spans_ok_random_choice
  | |- spans_ok _ (py_gt_int _ _) => apply spans_ok_py_gt_int
  | |- spans_ok _ (for_each _ _) => apply spans_ok_for_each; intros ?
  | |- spans_ok _ (route _) => apply spans_ok_route
  | |- spans_ok _ (if ?b then _ else _) => destruct b
  | |- spans_ok _ (let _ := _ in _) => cbv zeta
  end.

Ltac spans := repeat spans_step.

Section EndpointSpans.

Context {F : Type} `{PyFloat F}.

(** X1.  Every endpoint of [src/app/main.py], on every input and on both
    exits, closes each span it opened, innermost first, and makes every
    span record on the span that is innermost at that moment. *)
Theorem app_endpoints_spans_ok :
  spans_ok [] (App.root (F := F)) /\
  (forall user_id, spans_ok [] (App.get_user (F := F) user_id)) /\
  (forall telemetry, spans_ok [] (App.get_config (F := F) telemetry)) /\
  (forall now order, spans_ok [] (App.create_order (F := F) now order)) /\
  spans_ok [] (App.health (F := F)) /\
  (forall draws orders size,
     spans_ok [] (App.metrics_demo (F := F) draws orders size)) /\
  spans_ok [] (App.slow_endpoint (F := F)) /\
  spans_ok [] (App.error_endpoint (F := F)) /\
  (forall index value, spans_ok [] (App.random_endpoint (F := F) index value)).
Proof.
  repeat split; intros;
    unfold App.root, App.get_user, App.get_config, App.create_order,
      App.health, App.metrics_demo, App.slow_endpoint, App.error_endpoint,
      App.random_endpoint;
    spans.
Qed.

(** X2.  Every endpoint of [src/main.py], on every input and on both
    exits, closes each span it opened, innermost first, and makes every
    span record on the span that is innermost at that moment. *)
Theorem main_endpoints_spans_ok :
  spans_ok [] (Main.root (F := F)) /\
  (forall user_id, spans_ok [] (Main.get_user (F := F) user_id)) /\
  (forall now order, spans_ok [] (Main.create_order (F := F) now order)) /\
  spans_ok [] (Main.health (F := F)) /\
  (forall draws orders size,
     spans_ok [] (Main.metrics_demo (F := F) draws orders size)) /\
  spans_ok [] (Main.slow_endpoint (F := F)) /\
  spans_ok [] (Main.error_endpoint (F := F)) /\
  (forall index value, spans_ok [] (Main.random_endpoint (F := F) index value)).
Proof.
  repeat split; intros;
    unfold Main.root, Main.get_user, Main.create_order, Main.health,
      Main.metrics_demo, Main.slow_endpoint, Main.error_endpoint,
      Main.random_endpoint;
    spans.
Qed.

(** X3.  Both middlewares keep the discipline around any handler chain that
    keeps it, whether the chain returns or raises: the request span is
    closed on both exits. *)
Theorem middleware_spans_ok :
  forall (start_time end_time : F) (request : Request)
         (call_next : Request -> Eff F unit (Response F)),
    spans_ok [] (call_next request) ->
    spans_ok []
      (App.observability_middleware start_time end_time request call_next) /\
    spans_ok []
      (Main.metrics_middleware start_time end_time request call_next).
Proof.
  intros start_time end_time request call_next Hnext.
  split; unfold App.observability_middleware, Main.metrics_middleware;
    spans; apply spans_ok_await; exact Hnext.
Qed.

End EndpointSpans.

(** ** What one run records *)

Section RunRecords.

Context {F : Type} `{PyFloat F}.

Lemma metric_events_app :
  forall (instrument : string) (t1 t2 : list (Event F)),
    metric_events instrument (t1 ++ t2) =
    metric_events instrument t1 ++ metric_events instrument t2.
Proof. intros. unfold metric_events. apply filter_app. Qed.

Lemma counter_adds_app :
  forall (instrument : string) (t1 t2 : list (Event F)),
    counter_adds instrument (t1 ++ t2) =
    counter_adds instrument t1 ++ counter_adds instrument t2.
Proof. intros. unfold counter_adds. apply flat_map_app. Qed.

Lemma quiet_counter_adds :
  forall (instrument : string) (t : list (Event F)),
    metric_events instrument t = [] -> counter_adds instrument t = [].
Proof.
  intros instrument t. induction t as [| e t IH]; [reflexivity |].
  unfold metric_events, counter_adds in *. simpl.
  destruct e; simpl; try exact IH;
    destruct (String.eqb (name i) instrument); try discriminate; exact IH.
Qed.

Lemma quiet_gauge_sets :
  forall (instrument : string) (t : list (Event F)),
    metric_events instrument t = [] -> gauge_sets instrument t = [].
Proof.
  intros instrument t. induction t as [| e t IH]; [reflexivity |].
  unfold metric_events, gauge_sets in *. simpl.
  destruct e; simpl; try exact IH;
    destruct (String.eqb (name i) instrument); try discriminate; exact IH.
Qed.

(** The trace of a run around the trace of its handler chain. *)
Lemma run_middleware_trace :
  forall (r : Run F) (g : Globals),
    trace_of (run_middleware r g) =
    enter_trace (run_request r) (on_enter g) ++
    trace_of (downstream r) ++
    match result_of (downstream r) with
    | Return response =>
        response_trace (run_start r) (run_end r) (run_request r) response
          (on_response (status_code response) (on_enter g))
    | Raise e => raise_trace e
    end.
Proof.
  intros. unfold run_middleware. rewrite observability_middleware_summary.
  unfold run_summary, downstream.
  destruct (run_call_next r (run_request r) tt) as [[[response | e] u] t];
    reflexivity.
Qed.

(** X4.  When the handler chain raises, the request is counted in
    [total_requests] but not in [total_errors], and the only metric the
    middleware records is the incremented value of the active-requests
    gauge: no request count, no duration, no error rate. *)
Theorem raising_run_records :
  forall (r : Run F) (g : Globals) (e : Exn),
    result_of (downstream r) = Raise e ->
    let out := run_middleware r g in
    total_requests (state_of out) = total_requests g + 1 /\
    total_errors (state_of out) = total_errors g /\
    (forall instrument : string,
       instrument <> "active_requests_current" ->
       metric_events instrument (trace_of out) =
       metric_events instrument (trace_of (downstream r))) /\
    gauge_sets "active_requests_current" (trace_of out) =
      PInt (active_requests g + 1) ::
      gauge_sets "active_requests_current" (trace_of (downstream r)).
Proof.
  intros r g e Hraise out. subst out.
  rewrite run_middleware_state, run_middleware_trace, Hraise.
  split; [reflexivity |]. split; [reflexivity |]. split.
  - intros instrument Hother.
    rewrite !metric_events_app.
    unfold metric_events at 1 3, enter_trace, raise_trace.
    cbn -[String.eqb].
    destruct (String.eqb_spec "active_requests_current" instrument)
      as [Heq | _]; [congruence |].
    cbn -[String.eqb]. apply app_nil_r.
  - rewrite !gauge_sets_app. simpl. rewrite app_nil_r. reflexivity.
Qed.

(** X5.  When the handler chain returns a response, the request is counted as
    an error exactly when the status code is at least 400, and the
    middleware records, after anything the handler chain recorded, one
    request count carrying the status code as text and one duration
    sample of [end - start]. *)
Theorem completed_run_records :
  forall (r : Run F) (g : Globals) (response : Response F),
    result_of (downstream r) = Return response ->
    let out := run_middleware r g in
    let labels :=
      [("method", PStr (method (run_request r)));
       ("endpoint", PStr (path (url (run_request r))))] in
    total_requests (state_of out) = total_requests g + 1 /\
    (400 <= status_code response ->
       total_errors (state_of out) = total_errors g + 1) /\
    (status_code response < 400 ->
       total_errors (state_of out) = total_errors g) /\
    (exists i : Instrument,
       dict_lookup App.metrics "request_counter" = Some i /\
       metric_events "http_requests_custom_total" (trace_of out) =
         metric_events "http_requests_custom_total" (trace_of (downstream r))
         ++ [CounterAdd i 1
               (labels ++
                [("status_code", PStr (str_int (status_code response)))])]) /\
    (exists i : Instrument,
       dict_lookup App.metrics "response_time_histogram" = Some i /\
       metric_events "http_request_duration_seconds" (trace_of out) =
         metric_events "http_request_duration_seconds"
           (trace_of (downstream r))
         ++ [HistogramRecord i (PFloat (fsub (run_end r) (run_start r)))
               labels]).
Proof.
  intros r g response Hret out labels. subst out labels.
  rewrite run_middleware_state, run_middleware_trace, Hret.
  unfold on_response, response_trace.
  split; [| split; [| split; [| split]]].
  - destruct (400 <=? status_code response); reflexivity.
  - intros Hsc. destruct (Z.leb_spec 400 (status_code response));
      [reflexivity | lia].
  - intros Hsc. destruct (Z.leb_spec 400 (status_code response));
      [lia | reflexivity].
  - eexists. split; [reflexivity |].
    rewrite !metric_events_app.
    destruct (400 <=? status_code response); reflexivity.
  - eexists. split; [reflexivity |].
    rewrite !metric_events_app.
    destruct (400 <=? status_code response); reflexivity.
Qed.

(** X6.  An endpoint seen through FastAPI's dispatch and the middleware: a
    returned value that JSON can carry is a 200 response and no error; a
    returned value that holds an infinite or NaN float makes the rendering
    raise [ValueError], which leaves the middleware as an exception,
    counted as a request but not as an error, with [active_requests] left
    one higher; an [HTTPException] is a response with its status code,
    counted as an error when that code is at least 400; any other
    exception leaves the middleware as it entered it, counted as a request
    but not as an error. *)
Theorem endpoint_through_middleware :
  forall (start_time end_time : F) (request : Request)
         (endpoint : Eff F unit (PyVal F)) (g : Globals),
    let out :=
      App.observability_middleware start_time end_time request
        (fun _ => route endpoint) g in
    total_requests (state_of out) = total_requests g + 1 /\
    match result_of (endpoint tt) with
    | Return b =>
        if json_compliant b
        then
          result_of out = Return {| status_code := 200; body := b |} /\
          total_errors (state_of out) = total_errors g /\
          active_requests (state_of out) = active_requests g
        else
          (exists msg : string, result_of out = Raise (ValueError msg)) /\
          total_errors (state_of out) = total_errors g /\
          active_requests (state_of out) = active_requests g + 1
    | Raise (HTTPException sc detail) =>
        result_of out =
          Return {| status_code := sc;
                    body := PDict [("detail", PStr detail)] |} /\
        total_errors (state_of out) =
          total_errors g + (if 400 <=? sc then 1 else 0) /\
        active_requests (state_of out) = active_requests g
    | Raise e =>
        result_of out = Raise e /\
        total_errors (state_of out) = total_errors g /\
        active_requests (state_of out) = active_requests g + 1
    end.
Proof.
  intros. subst out. rewrite observability_middleware_summary.
  unfold run_summary, route, result_of.
  destruct (endpoint tt) as [[[b | e] u] t]; simpl.
  - destruct (json_compliant b); simpl.
    + split; [reflexivity |]. split; [reflexivity |].
      split; [reflexivity | lia].
    + split; [reflexivity |]. split; [eexists; reflexivity |].
      split; reflexivity.
  - destruct e as [sc detail | msg | key | msg | msg]; simpl;
      try (split; [reflexivity |]; split; [reflexivity |];
           split; reflexivity).
    unfold on_response.
    destruct (400 <=? sc); simpl;
      (split; [reflexivity |]; split; [reflexivity |]; split; lia).
Qed.

End RunRecords.

(** ** What a sequence of requests records *)

Section SequenceRecords.

Context {F : Type} `{PyFloat F}.

Lemma run_request_counter_adds :
  forall (r : Run F) (g : Globals),
    quiet_on "http_requests_custom_total" r ->
    counter_adds "http_requests_custom_total" (trace_of (run_middleware r g)) =
    match result_of (downstream r) with
    | Return response =>
        [(1, [("method", PStr (method (run_request r)));
              ("endpoint", PStr (path (url (run_request r))));
              ("status_code", PStr (str_int (status_code response)))])]
    | Raise _ => []
    end.
Proof.
  intros r g Hquiet. rewrite run_middleware_trace, !counter_adds_app.
  rewrite (quiet_counter_adds _ _ Hquiet).
  destruct (result_of (downstream r)) as [response | e]; [| reflexivity].
  unfold response_trace.
  destruct (400 <=? status_code response); reflexivity.
Qed.

Lemma serve_request_counter_adds :
  forall (runs : list (Run F)) (g : Globals),
    Forall (quiet_on "http_requests_custom_total") runs ->
    let adds :=
      counter_adds "http_requests_custom_total" (snd (serve runs g)) in
    List.length adds = List.length (filter completes runs) /\
    Forall (fun add => fst add = 1) adds.
Proof.
  induction runs as [| r rest IH]; intros g Hall adds; subst adds.
  - split; [reflexivity | constructor].
  - inversion Hall as [| r' rest' Hr Hrest]; subst.
    rewrite serve_cons. cbn [snd]. rewrite counter_adds_app.
    destruct (IH (state_of (run_middleware r g)) Hrest) as [IHlen IHone].
    rewrite run_request_counter_adds by exact Hr.
    assert (Hc : completes r = returns (result_of (downstream r)))
      by reflexivity.
    cbn [filter]. rewrite Hc.
    destruct (result_of (downstream r)) as [response | e]; simpl.
    + split; [f_equal; exact IHlen | constructor; [reflexivity | exact IHone]].
    + split; [exact IHlen | exact IHone].
Qed.

(** X7.  Served from the initial counters by handler chains that do not touch
    the request counter themselves, a sequence of requests adds 1 to the
    request counter once per request that ended with a response: the
    counter totals [total_requests - active_requests], so it falls behind
    [total_requests] by one for every request whose handler chain
    raised. *)
Theorem request_counter_total :
  forall runs : list (Run F),
    Forall (quiet_on "http_requests_custom_total") runs ->
    let g := fst (serve runs initial_globals) in
    let adds :=
      counter_adds "http_requests_custom_total"
        (snd (serve runs initial_globals)) in
    Forall (fun add => fst add = 1) adds /\
    Z.of_nat (List.length adds) = total_requests g - active_requests g.
Proof.
  intros runs Hquiet g adds.
  destruct (serve_request_counter_adds initial_globals Hquiet)
    as [Hlen Hone].
  fold adds in Hlen, Hone. split; [exact Hone |].
  destruct (serve_counters runs initial_globals) as [Hn _].
  pose proof (serve_active_requests runs initial_globals) as Ha.
  fold g in Hn, Ha. simpl in Hn, Ha. rewrite Z.add_0_l in Hn, Ha.
  pose proof (filter_length completes runs) as Hsplit.
  rewrite Hn, Ha, Hlen. lia.
Qed.

Lemma run_publishes_active_requests :
  forall (r : Run F) (g : Globals),
    quiet_on "active_requests_current" r ->
    exists earlier : list (PyVal F),
      gauge_sets "active_requests_current" (trace_of (run_middleware r g)) =
      earlier ++ [PInt (active_requests (state_of (run_middleware r g)))].
Proof.
  intros r g Hquiet.
  rewrite run_middleware_state, run_middleware_trace, !gauge_sets_app.
  rewrite (quiet_gauge_sets _ _ Hquiet).
  destruct (result_of (downstream r)) as [response | e].
  - exists [PInt (active_requests g + 1)].
    unfold response_trace, on_response.
    destruct (400 <=? status_code response); reflexivity.
  - exists []. reflexivity.
Qed.

(** X8.  After any non-empty sequence of requests whose handler chains do not
    touch the active-requests gauge, the value last set on the gauge is
    the value of [active_requests], on the response path and on the
    raising path alike. *)
Theorem active_gauge_tracks_counter :
  forall (runs : list (Run F)) (g : Globals),
    runs <> [] ->
    Forall (quiet_on "active_requests_current") runs ->
    exists earlier : list (PyVal F),
      gauge_sets "active_requests_current" (snd (serve runs g)) =
      earlier ++ [PInt (active_requests (fst (serve runs g)))].
Proof.
  induction runs as [| r rest IH]; intros g Hne Hall; [congruence |].
  inversion Hall as [| r' rest' Hr Hrest]; subst.
  rewrite serve_cons. cbn [fst snd]. rewrite gauge_sets_app.
  destruct rest as [| r2 rest2].
  - destruct (run_publishes_active_requests g Hr) as [earlier Hearlier].
    exists earlier. simpl. rewrite app_nil_r. exact Hearlier.
  - destruct (IH (state_of (run_middleware r g))) as [earlier Hearlier];
      [discriminate | assumption |].
    rewrite Hearlier. eexists. rewrite app_assoc. reflexivity.
Qed.

End SequenceRecords.

(** ** More on the endpoints *)

Section EndpointsFurther.

Context {F : Type} `{PyFloat F}.

Lemma active_requests_through_route :
  forall (start_time end_time : F) (request : Request)
         (endpoint : Eff F unit (PyVal F)) (g : Globals),
    active_requests
      (state_of
         (App.observability_middleware start_time end_time request
            (fun _ => route endpoint) g)) =
    active_requests g +
    (if returns (result_of (route endpoint tt)) then 0 else 1).
Proof.
  intros. rewrite observability_middleware_summary.
  unfold run_summary, result_of, state_of.
  destruct (route endpoint tt) as [[[response | e] u] t]; simpl.
  - unfold on_response. destruct (400 <=? status_code response); simpl; lia.
  - reflexivity.
Qed.

(** X13.  [create_order] returns exactly when the amount it reads is a
    number; otherwise it raises [TypeError] before the order metric is
    recorded, and its span records the exception, is given the error
    status with the text of the exception, and is ended. *)
Theorem create_order_fails_exactly_on_non_numbers :
  forall (now : F) (order : list (string * PyVal F)),
    let amount := dict_get order "amount" (PInt 0) in
    let run := App.create_order now order tt in
    let msg :=
      String.append "'>' not supported between instances of '"
        (String.append (type_name amount) "' and 'int'") in
    returns (result_of run) = is_number amount /\
    (is_number amount = false ->
       result_of run = Raise (TypeError msg) /\
       counter_adds "orders_created_total" (trace_of run) = [] /\
       trace_of run =
         [SpanStart "create_order";
          SpanSetAttribute "create_order" "order.amount" amount;
          SpanRecordException "create_order" (TypeError msg);
          SpanSetStatusError "create_order" (String.append "TypeError: " msg);
          SpanEnd "create_order"]).
Proof.
  intros now order amount run msg. subst run msg.
  unfold App.create_order, with_span, bind, emit, ret. fold amount.
  destruct amount as [ | b | z | f | s | l | d ]; simpl; split;
    try reflexivity; intros Hnum; try discriminate Hnum;
    repeat split.
Qed.

(** X14.  Seen through the middleware, every endpoint of [src/app/main.py]
    other than [create_order] and [metrics_demo] leaves [active_requests]
    as it was, on every input; [create_order] leaves it one higher exactly
    when the amount is not a finite number: not a number, so that the
    endpoint raises [TypeError], or an infinite or NaN float, so that
    rendering the response raises [ValueError]. *)
Theorem active_requests_by_endpoint :
  forall (start_time end_time : F) (request : Request) (g : Globals)
         (user_id : Z) (telemetry : OtelSetup.Telemetry) (value : Z)
         (now : F) (order : list (string * PyVal F)),
    let after (endpoint : Eff F unit (PyVal F)) :=
      active_requests
        (state_of
           (App.observability_middleware start_time end_time request
              (fun _ => route endpoint) g)) in
    after App.root = active_requests g /\
    after (App.get_user user_id) = active_requests g /\
    after (App.get_config telemetry) = active_requests g /\
    after App.health = active_requests g /\
    after App.slow_endpoint = active_requests g /\
    after App.error_endpoint = active_requests g /\
    Forall
      (fun index =>
         after (App.random_endpoint index value) = active_requests g)
      (seq 0 (List.length App.random_outcomes)) /\
    after (App.create_order now order) =
      active_requests g +
      (if is_finite_number (dict_get order "amount" (PInt 0)) then 0 else 1).
Proof.
  intros. subst after. cbv beta.
  assert (Hret : forall endpoint : Eff F unit (PyVal F),
             returns (result_of (route endpoint tt)) = true ->
             active_requests
               (state_of
                  (App.observability_middleware start_time end_time request
                     (fun _ => route endpoint) g)) = active_requests g).
  { intros endpoint Hr. rewrite active_requests_through_route, Hr. lia. }
  split; [apply Hret; reflexivity |].
  split.
  { apply Hret.
    unfold route, App.get_user, with_span, bind, emit, raise, ret. simpl.
    destruct (user_id <=? 0); reflexivity. }
  split; [apply Hret; reflexivity |].
  split; [apply Hret; reflexivity |].
  split; [apply Hret; reflexivity |].
  split; [apply Hret; reflexivity |].
  split.
  { simpl. repeat (constructor; [apply Hret; reflexivity |]). constructor. }
  rewrite active_requests_through_route. f_equal.
  unfold route, App.create_order, with_span, bind, emit, ret.
  destruct (dict_get order "amount" (PInt 0)) as [ | b | z | f | s | l | d ];
    try reflexivity.
  simpl. destruct (is_finite f); reflexivity.
Qed.

(** X15.  The three endpoints that [src/main.py] and [src/app/main.py]
    share give, on every input, the same result, the same span and metric
    records in the same order, and as many log records; the texts they
    log are not the same, the leading characters of the messages being
    different in the two files. *)
Theorem shared_endpoints_agree :
  forall (user_id : Z) (index : nat) (value : Z) (u : unit),
    let same (main app : Result (PyVal F) * unit * list (Event F)) :=
      result_of main = result_of app /\
      without_logs (trace_of main) = without_logs (trace_of app) /\
      List.length (filter is_log (trace_of main)) =
        List.length (filter is_log (trace_of app)) in
    same (Main.get_user user_id u) (App.get_user user_id u) /\
    same (Main.error_endpoint u) (App.error_endpoint u) /\
    same (Main.random_endpoint index value u)
         (App.random_endpoint index value u) /\
    filter is_log (trace_of (Main.get_user (F := F) user_id u)) <>
      filter is_log (trace_of (App.get_user (F := F) user_id u)).
Proof.
  intros. subst same. cbv beta. destruct u.
  split; [| split; [| split]].
  - unfold Main.get_user, App.get_user, with_span, bind, emit, raise, ret.
    simpl. destruct (user_id <=? 0); simpl; repeat split.
  - split; [reflexivity | split; reflexivity].
  - destruct index as [| [| [| [| [| index]]]]];
      (split; [reflexivity | split; reflexivity]).
  - unfold Main.get_user, App.get_user, with_span, bind, emit, raise, ret.
    simpl. destruct (user_id <=? 0); simpl; intros Heq; discriminate Heq.
Qed.


(** X17.  With every draw in range, both [metrics_demo] variants return the
    same body, which reports 5 user lookups, and both record exactly 5
    additions of 1 to the lookup counter, tagged by the draws in order,
    and one addition of the drawn number of orders to the order counter;
    the currency tag is ["USD"] in [src/app/main.py] and ["CNF"] in
    [src/main.py]. *)
Theorem metrics_demo_records :
  forall (user_type_index : Z -> nat) (orders : Z) (order_size_index : nat),
    (forall i : Z, 0 <= i < 5 -> (user_type_index i < 2)%nat) ->
    (order_size_index < 2)%nat ->
    let app := App.metrics_demo (F := F) user_type_index orders
                 order_size_index tt in
    let main := Main.metrics_demo (F := F) user_type_index orders
                  order_size_index tt in
    let lookups :=
      map (fun i =>
             (1, [("user_type",
                   PStr (nth (user_type_index i) ["standard"; "premium"] ""))]))
          (range 5) in
    let order_size := PStr (nth order_size_index ["small"; "large"] "") in
    result_of main = result_of app /\
    response_field
      (result_of
         (route
            (App.metrics_demo (F := F) user_type_index orders
               order_size_index) tt))
      "generated" =
      Some (PDict [("user_lookups", PInt (Z.of_nat (List.length lookups)));
                   ("orders", PStr "1-3 random orders")]) /\
    counter_adds "user_lookups_total" (trace_of app) = lookups /\
    counter_adds "user_lookups_total" (trace_of main) = lookups /\
    counter_adds "orders_created_total" (trace_of app) =
      [(orders, [("order_size", order_size); ("currency", PStr "USD")])] /\
    counter_adds "orders_created_total" (trace_of main) =
      [(orders, [("order_size", order_size); ("currency", PStr "CNF")])].
Proof.
  intros user_type_index orders order_size_index Hdraws Hsize
         app main lookups order_size.
  subst app main lookups order_size.
  unfold route, App.metrics_demo, Main.metrics_demo, range.
  cbn [seq map for_each].
  change (Z.of_nat 0) with 0. change (Z.of_nat 1) with 1.
  change (Z.of_nat 2) with 2. change (Z.of_nat 3) with 3.
  change (Z.of_nat 4) with 4.
  pose proof (Hdraws 0 ltac:(lia)) as H0.
  pose proof (Hdraws 1 ltac:(lia)) as H1.
  pose proof (Hdraws 2 ltac:(lia)) as H2.
  pose proof (Hdraws 3 ltac:(lia)) as H3.
  pose proof (Hdraws 4 ltac:(lia)) as H4.
  destruct (user_type_index 0) as [| [| n0]]; [| | lia];
    destruct (user_type_index 1) as [| [| n1]]; try lia;
    destruct (user_type_index 2) as [| [| n2]]; try lia;
    destruct (user_type_index 3) as [| [| n3]]; try lia;
    destruct (user_type_index 4) as [| [| n4]]; try lia;
    destruct order_size_index as [| [| n5]]; try lia;
    repeat split.
Qed.

End EndpointsFurther.

(** ** Interleaved requests: exact accounting *)

Lemma count_actions_cons :
  forall (p : Action -> bool) (a : Action) (rest : list Action),
    count_actions p (a :: rest) =
    (if p a then 1 else 0) + count_actions p rest.
Proof.
  intros. unfold count_actions. simpl.
  destruct (p a); simpl List.length; lia.
Qed.

Lemma schedule_from :
  forall (actions : list Action) (s0 s : System),
    schedule actions s0 = Some s ->
    0 <= in_flight s0 ->
    total_requests (counters s) =
      total_requests (counters s0) + count_actions is_enter actions /\
    total_errors (counters s) =
      total_errors (counters s0) + count_actions is_error_response actions /\
    active_requests (counters s) =
      active_requests (counters s0) + count_actions is_enter actions
      - count_actions is_response actions /\
    in_flight s =
      in_flight s0 + count_actions is_enter actions
      - count_actions is_response actions - count_actions is_fail actions /\
    0 <= in_flight s.
Proof.
  induction actions as [| a rest IH]; intros s0 s Hrun Hpos.
  - simpl in Hrun. injection Hrun as <-.
    unfold count_actions. simpl. lia.
  - simpl in Hrun. rewrite !count_actions_cons.
    destruct a as [| sc |]; simpl in Hrun.
    + apply IH in Hrun; [| simpl; lia]. simpl in Hrun. simpl. lia.
    + destruct (Z.ltb_spec 0 (in_flight s0)); [| discriminate].
      apply IH in Hrun; [| simpl; lia].
      unfold on_response in Hrun. simpl.
      destruct (400 <=? sc); simpl in Hrun; lia.
    + destruct (Z.ltb_spec 0 (in_flight s0)); [| discriminate].
      apply IH in Hrun; [| simpl; lia]. simpl in Hrun. simpl. lia.
Qed.

(** X12.  Whatever the order in which the event loop starts and resumes
    requests, the counters account for them exactly: [total_requests] is
    the number of requests started, [total_errors] the number of
    responses with status code at least 400, and [active_requests] the
    number of requests still suspended plus the number whose handler
    chain raised. *)
Theorem schedule_accounting :
  forall (actions : list Action) (s : System),
    schedule actions initial_system = Some s ->
    total_requests (counters s) = count_actions is_enter actions /\
    total_errors (counters s) = count_actions is_error_response actions /\
    active_requests (counters s) =
      in_flight s + count_actions is_fail actions /\
    0 <= in_flight s /\
    0 <= total_errors (counters s) <= total_requests (counters s) - in_flight s.
Proof.
  intros actions s Hrun.
  destruct (schedule_from actions initial_system Hrun)
    as (Hr & He & Ha & Hf & Hpos); [simpl; lia |].
  simpl in Hr, He, Ha, Hf.
  assert (Herr : 0 <= count_actions is_error_response actions
                   <= count_actions is_response actions).
  { unfold count_actions. clear. induction actions as [| a rest IH].
    - simpl. lia.
    - destruct a as [| sc |]; simpl; try lia.
      destruct (400 <=? sc); simpl List.length; lia. }
  assert (Hfail : 0 <= count_actions is_fail actions)
    by (unfold count_actions; lia).
  repeat split; lia.
Qed.

(** Every state a schedule reaches is reachable by steps. *)
Lemma schedule_reachable :
  forall (actions : list Action) (s0 s : System),
    reachable s0 -> schedule actions s0 = Some s -> reachable s.
Proof.
  induction actions as [| a rest IH]; intros s0 s Hreach Hrun.
  - simpl in Hrun. injection Hrun as <-. exact Hreach.
  - simpl in Hrun. destruct (act a s0) as [s1 |] eqn:Hact; [| discriminate].
    apply (IH s1 s); [| exact Hrun].
    apply reachable_step with s0; [exact Hreach |].
    destruct a as [| sc |]; simpl in Hact.
    + injection Hact as <-. constructor.
    + destruct (Z.ltb_spec 0 (in_flight s0)); [| discriminate].
      injection Hact as <-. constructor. assumption.
    + destruct (Z.ltb_spec 0 (in_flight s0)); [| discriminate].
      injection Hact as <-. constructor. assumption.
Qed.

(** ** More on sequences of requests *)

Section SequencesFurther.

Context {F : Type} `{PyFloat F}.

Lemma serve_app :
  forall (runs1 runs2 : list (Run F)) (g : Globals),
    serve (runs1 ++ runs2) g =
    (fst (serve runs2 (fst (serve runs1 g))),
     snd (serve runs1 g) ++ snd (serve runs2 (fst (serve runs1 g)))).
Proof.
  induction runs1 as [| r rest IH]; intros runs2 g.
  - simpl. destruct (serve runs2 g). reflexivity.
  - rewrite <- app_comm_cons, !serve_cons, IH. cbn [fst snd].
    rewrite app_assoc. reflexivity.
Qed.

(** X9.  A request whose handler chain raised stays in the denominator of the
    error rate and never enters the numerator: after any requests,
    whatever their outcomes, followed by one that ends with a response,
    the value last published is [E / N * 100] with [N] the number of all
    requests, the raised ones included, and [E] the number of responses
    with status code at least 400. *)
Theorem error_rate_counts_raised_requests :
  forall (runs : list (Run F)) (last : Run F),
    completes last = true ->
    let all := runs ++ [last] in
    let N := Z.of_nat (List.length all) in
    let E := count_errors all in
    exists earlier : list (PyVal F),
      gauge_sets "error_rate_current" (snd (serve all initial_globals)) =
      earlier ++ [PFloat (fmul_int (truediv E N) 100)].
Proof.
  intros runs last Hlast all N E.
  destruct (serve_counters all initial_globals) as [Hn He].
  simpl in Hn, He. rewrite Z.add_0_l in Hn, He. fold N in Hn. fold E in He.
  subst all. rewrite serve_app in *. cbn [fst snd] in *.
  rewrite gauge_sets_app.
  set (g1 := fst (serve runs initial_globals)) in *.
  rewrite serve_cons in *. cbn [serve fst snd] in *.
  rewrite app_nil_r.
  destruct (run_publishes_error_rate last g1 Hlast) as [earlier Hearlier].
  rewrite Hearlier. unfold error_rate_value. rewrite Hn, He.
  destruct (Z.ltb_spec 0 N) as [_ | Hzero].
  - eexists. rewrite app_assoc. reflexivity.
  - subst N. rewrite length_app in Hzero. simpl in Hzero. lia.
Qed.

Lemma globals_eq :
  forall g1 g2 : Globals,
    total_requests g1 = total_requests g2 ->
    total_errors g1 = total_errors g2 ->
    active_requests g1 = active_requests g2 ->
    g1 = g2.
Proof.
  intros [r1 e1 a1] [r2 e2 a2]. simpl. intros -> -> ->. reflexivity.
Qed.

Lemma filter_length_permutation :
  forall (A : Type) (p : A -> bool) (l1 l2 : list A),
    Permutation l1 l2 ->
    List.length (filter p l1) = List.length (filter p l2).
Proof.
  intros A p l1 l2 Hperm.
  induction Hperm as [| x l l' _ IH | x y l | l l' l'' _ IH1 _ IH2]; simpl.
  - reflexivity.
  - destruct (p x); simpl; congruence.
  - destruct (p x), (p y); reflexivity.
  - congruence.
Qed.

(** X11.  The counters after a sequence of requests depend on which requests
    were served, not on their order. *)
Theorem counters_independent_of_order :
  forall (runs1 runs2 : list (Run F)) (g : Globals),
    Permutation runs1 runs2 ->
    fst (serve runs1 g) = fst (serve runs2 g).
Proof.
  intros runs1 runs2 g Hperm.
  destruct (serve_counters runs1 g) as [Hn1 He1].
  destruct (serve_counters runs2 g) as [Hn2 He2].
  pose proof (serve_active_requests runs1 g) as Ha1.
  pose proof (serve_active_requests runs2 g) as Ha2.
  apply globals_eq.
  - rewrite Hn1, Hn2, (Permutation_length Hperm). reflexivity.
  - rewrite He1, He2. unfold count_errors.
    rewrite (filter_length_permutation is_error Hperm). reflexivity.
  - rewrite Ha1, Ha2.
    rewrite (filter_length_permutation (fun r => negb (completes r)) Hperm).
    reflexivity.
Qed.

End SequencesFurther.

(** ** Consistency of tags, bodies and instruments *)

Section Consistency.

Context {F : Type} `{PyFloat F}.

(** X18.  For every valid user id the [user_type] tag recorded on the lookup
    counter is the ["type"] the response reports, although the code
    decides them by two separate comparisons. *)
Theorem get_user_tag_matches_type :
  forall user_id : Z,
    0 < user_id ->
    exists user_type : PyVal F,
      response_field (result_of (route (App.get_user (F := F) user_id) tt))
        "type" = Some user_type /\
      counter_adds "user_lookups_total"
        (trace_of (App.get_user (F := F) user_id tt)) =
        [(1, [("user_type", user_type)])].
Proof.
  intros user_id Hpos.
  unfold route, App.get_user, with_span, bind, emit, raise, ret. simpl.
  destruct (Z.leb_spec user_id 0) as [Hneg | _]; [lia |].
  destruct (Z.ltb_spec user_id 1000), (Z.leb_spec 1000 user_id); try lia;
    simpl; eexists; split; reflexivity.
Qed.

End Consistency.

(** X19.  The registry of [src/app/otel_setup.py] binds six distinct keys to
    instruments of six distinct names, and each instrument that
    [src/main.py] creates at module level is the one the registry holds
    for the same role. *)
Theorem registry_consistent :
  NoDup (map fst OtelSetup.create_metrics_instruments) /\
  NoDup (map (fun entry => name (snd entry))
           OtelSetup.create_metrics_instruments) /\
  List.length OtelSetup.create_metrics_instruments = 6%nat /\
  dict_lookup App.metrics "request_counter" =
    Some Main.custom_request_counter /\
  dict_lookup App.metrics "response_time_histogram" =
    Some Main.response_time_histogram /\
  dict_lookup App.metrics "orders_counter" = Some Main.orders_counter /\
  dict_lookup App.metrics "user_lookups_counter" =
    Some Main.user_lookups_counter /\
  dict_lookup App.metrics "active_requests_gauge" =
    Some Main.active_requests_gauge /\
  dict_lookup App.metrics "error_rate_gauge" = Some Main.error_rate_gauge.
Proof.
  assert (Hnodup : forall l : list string,
             (fix distinct (l : list string) : bool :=
                match l with
                | [] => true
                | x :: rest =>
                    negb (existsb (String.eqb x) rest) && distinct rest
                end) l = true -> NoDup l).
  { induction l as [| x rest IH]; intros Hd; [constructor |].
    apply andb_prop in Hd. destruct Hd as [Hx Hrest].
    constructor; [| exact (IH Hrest)].
    intros Hin. apply negb_true_iff in Hx.
    assert (Hex : existsb (String.eqb x) rest = true).
    { apply existsb_exists. exists x. split; [exact Hin |].
      apply String.eqb_refl. }
    congruence. }
  split; [apply Hnodup; reflexivity |].
  split; [apply Hnodup; reflexivity |].
  repeat split.
Qed.

(** ** Concrete instances of the further properties *)

Lemma middleware_spans_ok_witness :
  spans_ok []
    (run_call_next Examples.text_amount_order
       (run_request Examples.text_amount_order)) /\
  span_stack []
    (trace_of (run_middleware Examples.text_amount_order initial_globals))
    = Some [].
Proof.
  assert (Hnext : spans_ok []
                    (run_call_next Examples.text_amount_order
                       (run_request Examples.text_amount_order)))
    by (intros [] base; reflexivity).
  split; [exact Hnext |].
  destruct (middleware_spans_ok
              (run_start Examples.text_amount_order)
              (run_end Examples.text_amount_order)
              (run_request Examples.text_amount_order)
              (run_call_next Examples.text_amount_order) Hnext)
    as [Happ _].
  exact (Happ initial_globals []).
Defined.

Lemma raising_run_records_witness :
  let r := Examples.text_amount_order in
  let e :=
    TypeError "'>' not supported between instances of 'str' and 'int'" in
  result_of (downstream r) = Raise e /\
  total_errors (state_of (run_middleware r initial_globals)) = 0 /\
  gauge_sets "active_requests_current"
    (trace_of (run_middleware r initial_globals)) = [PInt 1].
Proof.
  intros r e.
  assert (Hraise : result_of (downstream r) = Raise e) by reflexivity.
  split; [exact Hraise |].
  pose proof (raising_run_records r initial_globals Hraise) as Hspec.
  cbv zeta in Hspec. destruct Hspec as (_ & Herrors & _ & Hgauge).
  split; [exact Herrors | exact Hgauge].
Defined.

Lemma completed_run_records_witness :
  let r := Examples.failed_lookup in
  let response : Response Q :=
    {| status_code := 400;
       body := PDict [("detail", PStr "User ID must be positive")] |} in
  result_of (downstream r) = Return response /\
  400 <= status_code response /\
  total_errors (state_of (run_middleware r initial_globals)) = 0 + 1.
Proof.
  intros r response.
  assert (Hret : result_of (downstream r) = Return response) by reflexivity.
  split; [exact Hret |].
  assert (Hsc : 400 <= status_code response) by (simpl; lia).
  split; [exact Hsc |].
  pose proof (completed_run_records r initial_globals Hret) as Hspec.
  cbv zeta in Hspec. destruct Hspec as (_ & Herror & _).
  exact (Herror Hsc).
Defined.

Lemma request_counter_total_witness :
  let runs := Examples.two_lookups ++ [Examples.text_amount_order] in
  let g := fst (serve runs initial_globals) in
  Forall (quiet_on "http_requests_custom_total") runs /\
  Z.of_nat
    (List.length
       (counter_adds "http_requests_custom_total"
          (snd (serve runs initial_globals)))) =
  total_requests g - active_requests g.
Proof.
  intros runs g.
  assert (Hquiet : Forall (quiet_on "http_requests_custom_total") runs)
    by (repeat constructor).
  split; [exact Hquiet |].
  pose proof (request_counter_total Hquiet) as Hspec.
  cbv zeta in Hspec. destruct Hspec as [_ Htotal]. exact Htotal.
Defined.

Lemma active_gauge_tracks_counter_witness :
  let runs := [Examples.text_amount_order] in
  runs <> [] /\
  Forall (quiet_on "active_requests_current") runs /\
  exists earlier : list (PyVal Q),
    gauge_sets "active_requests_current" (snd (serve runs initial_globals)) =
    earlier ++ [PInt (active_requests (fst (serve runs initial_globals)))].
Proof.
  intros runs.
  assert (Hne : runs <> []) by discriminate.
  assert (Hquiet : Forall (quiet_on "active_requests_current") runs)
    by (repeat constructor).
  split; [exact Hne |]. split; [exact Hquiet |].
  exact (active_gauge_tracks_counter initial_globals Hne Hquiet).
Defined.

Lemma create_order_fails_exactly_on_non_numbers_witness :
  let order : list (string * PyVal Q) := [("amount", PNone)] in
  is_number (dict_get order "amount" (PInt 0)) = false /\
  counter_adds "orders_created_total"
    (trace_of (App.create_order 21%Q order tt)) = [].
Proof.
  intros order.
  assert (Hnum : is_number (dict_get order "amount" (PInt 0)) = false)
    by reflexivity.
  split; [exact Hnum |].
  pose proof (create_order_fails_exactly_on_non_numbers 21%Q order) as Hspec.
  cbv zeta in Hspec. destruct Hspec as [_ Hfail].
  destruct (Hfail Hnum) as (_ & Hadds & _). exact Hadds.
Defined.

Lemma metrics_demo_records_witness :
  let draws := fun _ : Z => 1%nat in
  (forall i : Z, 0 <= i < 5 -> (draws i < 2)%nat) /\
  (0 < 2)%nat /\
  counter_adds "orders_created_total"
    (trace_of (Main.metrics_demo (F := Q) draws 3 0 tt)) =
    [(3, [("order_size", PStr "small"); ("currency", PStr "CNF")])].
Proof.
  intros draws.
  assert (Hdraws : forall i : Z, 0 <= i < 5 -> (draws i < 2)%nat)
    by (intros i _; unfold draws; lia).
  assert (Hsize : (0 < 2)%nat) by lia.
  split; [exact Hdraws |]. split; [exact Hsize |].
  pose proof (metrics_demo_records (F := Q) draws 3 Hdraws Hsize) as Hspec.
  cbv zeta in Hspec. destruct Hspec as (_ & _ & _ & _ & _ & Hmain).
  exact Hmain.
Defined.

Lemma schedule_accounting_witness :
  let actions := [Enter; Enter; Respond 500; Fail; Enter] in
  let s :=
    {| counters :=
         {| total_requests := 3; total_errors := 1; active_requests := 2 |};
       in_flight := 1 |} in
  schedule actions initial_system = Some s /\
  active_requests (counters s) = in_flight s + count_actions is_fail actions.
Proof.
  intros actions s.
  assert (Hrun : schedule actions initial_system = Some s) by reflexivity.
  split; [exact Hrun |].
  destruct (schedule_accounting actions Hrun) as (_ & _ & Hactive & _).
  exact Hactive.
Defined.

Lemma error_rate_counts_raised_requests_witness :
  let runs := [Examples.text_amount_order] in
  let last := Examples.failed_lookup in
  completes last = true /\
  exists earlier : list (PyVal Q),
    gauge_sets "error_rate_current"
      (snd (serve (runs ++ [last]) initial_globals)) =
    earlier ++ [PFloat (fmul_int (truediv 1 2) 100)].
Proof.
  intros runs last.
  assert (Hlast : completes last = true) by reflexivity.
  split; [exact Hlast |].
  exact (error_rate_counts_raised_requests runs last Hlast).
Defined.

Lemma counters_independent_of_order_witness :
  let runs1 := [Examples.failed_lookup; Examples.text_amount_order] in
  let runs2 := [Examples.text_amount_order; Examples.failed_lookup] in
  Permutation runs1 runs2 /\
  fst (serve runs1 initial_globals) = fst (serve runs2 initial_globals).
Proof.
  intros runs1 runs2.
  assert (Hperm : Permutation runs1 runs2) by apply perm_swap.
  split; [exact Hperm |].
  exact (counters_independent_of_order initial_globals Hperm).
Defined.

Lemma get_user_tag_matches_type_witness :
  0 < 1500 /\
  exists user_type : PyVal Q,
    response_field (result_of (route (App.get_user (F := Q) 1500) tt)) "type"
      = Some user_type /\
    counter_adds "user_lookups_total"
      (trace_of (App.get_user (F := Q) 1500 tt)) =
      [(1, [("user_type", user_type)])].
Proof.
  assert (Hpos : 0 < 1500) by lia.
  split; [exact Hpos |].
  exact (get_user_tag_matches_type (F := Q) Hpos).
Defined.

(** ** Every published error rate *)

Section ErrorRateHistory.

Context {F : Type} `{PyFloatOrder F}.

Lemma run_error_rate_publications :
  forall (r : Run F) (g : Globals),
    quiet_on "error_rate_current" r ->
    gauge_sets "error_rate_current" (trace_of (run_middleware r g)) =
    if completes r
    then [error_rate_value (state_of (run_middleware r g))]
    else [].
Proof.
  intros r g Hquiet.
  rewrite run_middleware_state, run_middleware_trace, !gauge_sets_app.
  rewrite (quiet_gauge_sets _ _ Hquiet). unfold completes.
  destruct (result_of (downstream r)) as [response | e]; [| reflexivity].
  simpl. apply response_trace_error_rate.
Qed.

Lemma serve_error_rates_in_range :
  forall (runs : list (Run F)) (g : Globals),
    0 <= total_errors g <= total_requests g ->
    Forall (quiet_on "error_rate_current") runs ->
    Forall
      (fun v : PyVal F =>
         exists x : F,
           v = PFloat x /\ fle (float_of_int 0) x /\ fle x (float_of_int 100))
      (gauge_sets "error_rate_current" (snd (serve runs g))).
Proof.
  induction runs as [| r rest IH]; intros g Hinv Hall; [constructor |].
  inversion Hall as [| r' rest' Hr Hrest]; subst.
  rewrite serve_cons. cbn [snd]. rewrite gauge_sets_app.
  pose proof (total_requests_after_run r g) as Hn.
  pose proof (total_errors_after_run r g) as He.
  assert (Hinv' : 0 <= total_errors (state_of (run_middleware r g))
                    <= total_requests (state_of (run_middleware r g)))
    by (destruct (is_error r); lia).
  apply Forall_app. split; [| exact (IH _ Hinv' Hrest)].
  rewrite run_error_rate_publications by exact Hr.
  destruct (completes r); [| constructor].
  constructor; [| constructor].
  destruct (error_rate_in_range _ Hinv') as (Hval & Hlo & Hhi); [lia |].
  eexists. split; [exact Hval | split; [exact Hlo | exact Hhi]].
Qed.

(** X10.  In a sequence of requests served from the initial counters by
    handler chains that do not touch the error-rate gauge, every value
    ever set on the gauge is a quotient in [0, 100]; the fallback 0 of the
    zero-denominator branch is never published. *)
Theorem published_error_rates_in_range :
  forall runs : list (Run F),
    Forall (quiet_on "error_rate_current") runs ->
    Forall
      (fun v : PyVal F =>
         exists x : F,
           v = PFloat x /\ fle (float_of_int 0) x /\ fle x (float_of_int 100))
      (gauge_sets "error_rate_current" (snd (serve runs initial_globals))).
Proof.
  intros runs Hquiet.
  apply serve_error_rates_in_range; [simpl; lia | exact Hquiet].
Qed.

End ErrorRateHistory.

Lemma published_error_rates_in_range_witness :
  Forall (quiet_on "error_rate_current") Examples.two_lookups /\
  Forall
    (fun v : PyVal Q =>
       exists x : Q, v = PFloat x /\ (0 <= x)%Q /\ (x <= 100)%Q)
    (gauge_sets "error_rate_current"
       (snd (serve Examples.two_lookups initial_globals))).
Proof.
  assert (Hquiet : Forall (quiet_on "error_rate_current") Examples.two_lookups)
    by (repeat constructor).
  split; [exact Hquiet |].
  exact (published_error_rates_in_range (F := Q) Hquiet).
Defined.
